(** * dept-chatbot: the voice UI (frontend/app/page.js) and the /api/ask proxy route

    A shallow embedding of the two JavaScript sources and the properties of
    their request/response glue.

    - [Js]    : the fragment of JavaScript values and operators the sources use
                (truthiness, [||], property reads, [?.], [String.prototype.trim]).
    - [Proxy] : the route handler [POST] with [backendConfig]; outbound calls
                are logged in a state monad, exceptions live in an error monad.
    - [Ui]    : the [HomePage] component as a transition system over its
                [useState] fields; every handler is one atomic transition. *)

From Stdlib Require Import ZArith NArith List String Ascii Bool Lia DecimalString.
From Stdlib Require Import Floats.SpecFloat.
From ExtLib Require Import Structures.Monad Structures.MonadState Structures.MonadExc.
From ExtLib Require Import Data.Monads.StateMonad Data.Monads.EitherMonad.
Import ListNotations.

(* ===================================================================== *)
(** ** JavaScript values                                                  *)
(* ===================================================================== *)

Module Js.

(** A JavaScript string is a sequence of UTF-16 code units. *)
Definition jsstr := list N.

(** The code units of an ASCII literal of the source. *)
Definition str (s : string) : jsstr :=
  map N_of_ascii (list_ascii_of_string s).

Fixpoint jsstr_eqb (a b : jsstr) : bool :=
  match a, b with
  | [], [] => true
  | x :: a', y :: b' => N.eqb x y && jsstr_eqb a' b'
  | _, _ => false
  end.

(** [s] is the empty string, the only falsy string. *)
Definition is_empty (s : jsstr) : bool :=
  match s with [] => true | _ :: _ => false end.

(** Values: what [JSON.parse] yields, plus [undefined], which a property
    read can yield.  Numbers are IEEE 754 binary64 data ([JSON.parse] gives
    an infinity for a numeral too large for a double).  An object lists its
    own properties in the object's order, each key once. *)
#[warnings="-register-all"]
Inductive value :=
| VUndefined
| VNull
| VBool (b : bool)
| VNumber (x : spec_float)
| VString (s : jsstr)
| VArray (items : list value)
| VObject (props : list (jsstr * value)).

(** ToBoolean. *)
Definition truthy (v : value) : bool :=
  match v with
  | VUndefined | VNull => false
  | VBool b => b
  | VNumber (S754_zero _) | VNumber S754_nan => false
  | VNumber _ => true
  | VString s => negb (is_empty s)
  | VArray _ | VObject _ => true
  end.

(** [a || b]. *)
Definition or (a b : value) : value := if truthy a then a else b.

(** Own-property lookup in an object built by [JSON.parse]. *)
Fixpoint lookup (k : jsstr) (props : list (jsstr * value)) : value :=
  match props with
  | [] => VUndefined
  | (k', v) :: rest => if jsstr_eqb k k' then v else lookup k rest
  end.

(** [v?.k] for the keys the sources read ([question], [detail]): none of them
    is defined on a prototype, so only an object's own property answers. *)
Definition opt_prop (v : value) (k : jsstr) : value :=
  match v with
  | VObject props => lookup k props
  | _ => VUndefined
  end.

(** [v.k] for the keys [answer] and [route]: as [v?.k], but reading a
    property of [null] or [undefined] raises a TypeError ([None]). *)
Definition prop (v : value) (k : jsstr) : option value :=
  match v with
  | VUndefined | VNull => None
  | _ => Some (opt_prop v k)
  end.

(** WhiteSpace and LineTerminator code units, the ones [trim] strips. *)
Definition is_space (c : N) : bool :=
  match c with
  | 0x09 | 0x0A | 0x0B | 0x0C | 0x0D | 0x20 | 0xA0 | 0x1680
  | 0x2028 | 0x2029 | 0x202F | 0x205F | 0x3000 | 0xFEFF => true
  | _ => (0x2000 <=? c) && (c <=? 0x200A)
  end%N.

Fixpoint trim_start (s : jsstr) : jsstr :=
  match s with
  | c :: s' => if is_space c then trim_start s' else s
  | [] => []
  end.

Definition trim_end (s : jsstr) : jsstr := rev (trim_start (rev s)).

(** [String.prototype.trim]. *)
Definition trim (s : jsstr) : jsstr := trim_end (trim_start s).

(** What a JSON text denotes.  A number is the numeral [JSON.stringify]
    prints for that finite double, which [JSON.parse] reads back as the same
    double. *)
#[warnings="-register-all"]
Inductive jvalue :=
| JNull
| JBool (b : bool)
| JNumber (x : spec_float)
| JString (s : jsstr)
| JArray (items : list jvalue)
| JObject (members : list (jsstr * jvalue)).

(** The result of [JSON.stringify]: a JSON text, or [undefined] ([None]). *)
Definition json_text := option jvalue.

(** [JSON.stringify v].  It loses information: NaN and the infinities are
    written [null], negative zero is written [0], [undefined] is written
    [null] inside an array and its property is left out of an object, and
    [undefined] itself gives [undefined]. *)
Fixpoint JSON_stringify (v : value) : json_text :=
  match v with
  | VUndefined => None
  | VNull => Some JNull
  | VBool b => Some (JBool b)
  | VNumber S754_nan | VNumber (S754_infinity _) => Some JNull
  | VNumber (S754_zero _) => Some (JNumber (S754_zero false))
  | VNumber x => Some (JNumber x)
  | VString s => Some (JString s)
  | VArray items =>
      Some (JArray (map (fun item =>
                           match JSON_stringify item with
                           | Some j => j
                           | None => JNull
                           end) items))
  | VObject props =>
      Some (JObject (flat_map (fun '(k, item) =>
                                 match JSON_stringify item with
                                 | Some j => [(k, j)]
                                 | None => []
                                 end) props))
  end.

Arguments JSON_stringify : simpl never.

(** [JSON.parse] of a JSON text. *)
Fixpoint JSON_parse (j : jvalue) : value :=
  match j with
  | JNull => VNull
  | JBool b => VBool b
  | JNumber x => VNumber x
  | JString s => VString s
  | JArray items => VArray (map JSON_parse items)
  | JObject members => VObject (map (fun '(k, item) => (k, JSON_parse item)) members)
  end.

(** The values [JSON.stringify] writes without loss: no [undefined], no
    NaN or infinity and no negative zero anywhere inside. *)
Fixpoint json_stable (v : value) : bool :=
  match v with
  | VUndefined => false
  | VNumber S754_nan | VNumber (S754_infinity _) | VNumber (S754_zero true) => false
  | VArray items => forallb json_stable items
  | VObject props => forallb (fun '(_, item) => json_stable item) props
  | _ => true
  end.

End Js.

(* ===================================================================== *)
(** ** The proxy route: [backendConfig] and [POST]                        *)
(* ===================================================================== *)

Module Proxy.
Import Js.
Import MonadNotation.
Local Open Scope monad_scope.

(** [process.env]: a variable is a string or is not set. *)
Record ProcessEnv := {
  BACKEND_BASE_URL : option jsstr;
  BACKEND_API_KEY : option jsstr
}.

(** [process.env.X || dflt]: an unset variable and an empty one both give
    the default. *)
Definition env_or (x : option jsstr) (dflt : jsstr) : jsstr :=
  match x with
  | Some s => if is_empty s then dflt else s
  | None => dflt
  end.

Record Config := { baseUrl : jsstr; apiKey : jsstr }.

Definition backendConfig (env : ProcessEnv) : Config :=
  {| baseUrl := env_or (BACKEND_BASE_URL env) (str "http://127.0.0.1:8001");
     apiKey := env_or (BACKEND_API_KEY env) (str "") |}.

(** The incoming request: [request.json()] resolves to a value or rejects. *)
Record Request := { request_json : option value }.

(** The arguments of one [fetch] call. *)
Record OutRequest := {
  url : jsstr;
  method : jsstr;
  headers : list (jsstr * jsstr);
  body : json_text;
  cache : jsstr
}.

(** What [fetch] resolves to: a status, and the result of [response.json()]
    ([None] when the body is not JSON). *)
Record BackendResponse := {
  backend_status : Z;
  backend_json : option value
}.

(** [response.ok]. *)
Definition ok (r : BackendResponse) : bool :=
  (200 <=? backend_status r)%Z && (backend_status r <=? 299)%Z.

(** The network and the backend behind it: [None] is a rejected [fetch]. *)
Definition Backend := OutRequest -> option BackendResponse.

(** What the handler returns. *)
Record NextResponse := { status : Z; json : json_text }.

Inductive exn := TypeError | SyntaxError | RangeError.

(** Handler code runs with the log of the [fetch] calls made so far and
    may throw; a throw keeps the log. *)
Definition M := eitherT exn (state (list OutRequest)).

(** Running handler code from a given log: what it returns or throws,
    and the log afterwards. *)
Definition exec {A} (c : M A) (log : list OutRequest) : (exn + A) * list OutRequest :=
  runState (unEitherT c) log.

(** A whole request starts with no call made. *)
Definition run {A} (c : M A) : (exn + A) * list OutRequest := exec c [].

(** [await p] for a promise that resolves to [v] ([Some v]) or rejects
    with [e] ([None]). *)
Definition await {A} (e : exn) (p : option A) : M A :=
  match p with
  | Some v => ret v
  | None => raise e
  end.

(** [await request.json()]. *)
Definition await_request_json (request : Request) : M value :=
  await SyntaxError (request_json request).

(** [x.trim()]: only a string has the method. *)
Definition call_trim (x : value) : M value :=
  match x with
  | VString s => ret (VString (trim s))
  | _ => raise TypeError
  end.

(** [await fetch(url, init)]: the call is logged, then settles. *)
Definition await_fetch (backend : Backend) (req : OutRequest) : M BackendResponse :=
  log <- get ;;
  put (log ++ [req]) ;;
  await TypeError (backend req).

(** [await response.json()]. *)
Definition await_response_json (r : BackendResponse) : M value :=
  await SyntaxError (backend_json r).

(** Statuses for which the Fetch [Response] constructor refuses a body. *)
Definition null_body_status (s : Z) : bool :=
  (s =? 101)%Z || (s =? 103)%Z || (s =? 204)%Z || (s =? 205)%Z || (s =? 304)%Z.

(** [NextResponse.json(data, { status })] builds a Fetch [Response] around
    the JSON text of [data]: it throws a TypeError when [data] has no JSON
    text, and the constructor throws a RangeError for a status outside
    200..599 and a TypeError for a null-body status. *)
Definition NextResponse_json (data : value) (st : Z) : M NextResponse :=
  match JSON_stringify data with
  | None => raise TypeError
  | Some _ =>
      if negb ((200 <=? st)%Z && (st <=? 599)%Z) then raise RangeError
      else if null_body_status st then raise TypeError
      else ret {| status := st; json := JSON_stringify data |}
  end.

(** The object literal [{ detail: msg }]. *)
Definition detail (msg : string) : value :=
  VObject [(str "detail", VString (str msg))].

(** The [headers] object after line 34. *)
Definition request_headers (apiKey : jsstr) : list (jsstr * jsstr) :=
  (str "Content-Type", str "application/json")
    :: (if is_empty apiKey then [] else [(str "X-API-Key", apiKey)]).

(** The arguments of the [fetch] call of lines 36-41. *)
Definition query_request (cfg : Config) (question : value) : OutRequest :=
  {| url := baseUrl cfg ++ str "/query";
     method := str "POST";
     headers := request_headers (apiKey cfg);
     body := JSON_stringify (VObject [(str "question", question)]);
     cache := str "no-store" |}.

Section Handler.
Variable env : ProcessEnv.
Variable backend : Backend.

(** Lines 28-51: the handler once [question] is known. *)
Definition POST_validated (question : value) : M NextResponse :=
  if negb (truthy question) then
    NextResponse_json (detail "Question is required.") 400
  else
    response <- await_fetch backend (query_request (backendConfig env) question) ;;
    payload <- catch (await_response_json response)
                     (fun _ => ret (detail "Invalid backend response.")) ;;
    if negb (ok response) then
      NextResponse_json
        (VObject [(str "detail",
                   or (opt_prop payload (str "detail"))
                      (VString (str "Backend request failed.")))])
        (backend_status response)
    else
      NextResponse_json payload 200.

(** The [try] block of [POST]. *)
Definition POST_try (request : Request) : M NextResponse :=
  body <- await_request_json request ;;
  question <- call_trim (or (opt_prop body (str "question")) (VString (str ""))) ;;
  POST_validated question.

Definition POST (request : Request) : M NextResponse :=
  catch (POST_try request)
        (fun _ => NextResponse_json (detail "Failed to process request.") 500).

End Handler.

End Proxy.

(* ===================================================================== *)
(** ** The voice UI: [HomePage]                                           *)
(* ===================================================================== *)

Module Ui.
Import Js.

(** The browser globals the component tests for. *)
Record Window := {
  SpeechRecognition : bool;
  webkitSpeechRecognition : bool;
  speechSynthesis : bool
}.

(** What a [catch] clause can receive: an [Error] instance with its
    message, or any other value. *)
Inductive thrown :=
| ThrownError (message : jsstr)
| ThrownValue (v : value).

(** What the JavaScript engine decides: the text ToString gives a value that
    is not a string (or the message of the TypeError it raises, [inl]), and
    the message of the TypeError raised by reading a property of [null]. *)
Record Engine := {
  ToString_other : value -> jsstr + jsstr;
  null_read_message : jsstr -> jsstr
}.

Definition ToString (engine : Engine) (v : value) : jsstr + jsstr :=
  match v with
  | VString s => inr s
  | _ => ToString_other engine v
  end.

(** The recognizer [createSpeechRecognition] configures. *)
Record Recognition := {
  lang : jsstr;
  interimResults : bool;
  maxAlternatives : Z
}.

Definition createSpeechRecognition (window : option Window) : option Recognition :=
  match window with
  | None => None
  | Some w =>
      if negb (SpeechRecognition w || webkitSpeechRecognition w) then None
      else Some {| lang := str "en-US"; interimResults := false; maxAlternatives := 1 |}
  end.

Definition something_went_wrong : value := VString (str "Something went wrong.").

Definition normalizeMessage (error : thrown) : value :=
  match error with
  | ThrownValue v =>
      if negb (truthy v) then something_went_wrong
      else match v with
           | VString _ => v
           | _ => or (opt_prop v (str "message")) something_went_wrong
           end
  | ThrownError m => or (VString m) something_went_wrong
  end.

(** The [useState] fields and the ref of [HomePage]. *)
Record State := {
  question : jsstr;
  answer : value;
  route : value;
  listening : bool;
  loading : bool;
  error : value;
  mounted : bool;
  speechSupported : bool;
  recognitionRef : option Recognition
}.

Definition initial_state : State :=
  {| question := str ""; answer := VString (str ""); route := VString (str "");
     listening := false; loading := false; error := VString (str "");
     mounted := false; speechSupported := false; recognitionRef := None |}.

Definition setQuestion (x : jsstr) (s : State) : State :=
  {| question := x; answer := answer s; route := route s;
     listening := listening s; loading := loading s; error := error s;
     mounted := mounted s; speechSupported := speechSupported s;
     recognitionRef := recognitionRef s |}.

Definition setAnswer (x : value) (s : State) : State :=
  {| question := question s; answer := x; route := route s;
     listening := listening s; loading := loading s; error := error s;
     mounted := mounted s; speechSupported := speechSupported s;
     recognitionRef := recognitionRef s |}.

Definition setRoute (x : value) (s : State) : State :=
  {| question := question s; answer := answer s; route := x;
     listening := listening s; loading := loading s; error := error s;
     mounted := mounted s; speechSupported := speechSupported s;
     recognitionRef := recognitionRef s |}.

Definition setListening (x : bool) (s : State) : State :=
  {| question := question s; answer := answer s; route := route s;
     listening := x; loading := loading s; error := error s;
     mounted := mounted s; speechSupported := speechSupported s;
     recognitionRef := recognitionRef s |}.

Definition setLoading (x : bool) (s : State) : State :=
  {| question := question s; answer := answer s; route := route s;
     listening := listening s; loading := x; error := error s;
     mounted := mounted s; speechSupported := speechSupported s;
     recognitionRef := recognitionRef s |}.

Definition setError (x : value) (s : State) : State :=
  {| question := question s; answer := answer s; route := route s;
     listening := listening s; loading := loading s; error := x;
     mounted := mounted s; speechSupported := speechSupported s;
     recognitionRef := recognitionRef s |}.

Definition setMounted (x : bool) (s : State) : State :=
  {| question := question s; answer := answer s; route := route s;
     listening := listening s; loading := loading s; error := error s;
     mounted := x; speechSupported := speechSupported s;
     recognitionRef := recognitionRef s |}.

Definition setSpeechSupported (x : bool) (s : State) : State :=
  {| question := question s; answer := answer s; route := route s;
     listening := listening s; loading := loading s; error := error s;
     mounted := mounted s; speechSupported := x;
     recognitionRef := recognitionRef s |}.

Definition set_recognitionRef (x : option Recognition) (s : State) : State :=
  {| question := question s; answer := answer s; route := route s;
     listening := listening s; loading := loading s; error := error s;
     mounted := mounted s; speechSupported := speechSupported s;
     recognitionRef := x |}.

(** A call made to [window.speechSynthesis]. *)
Inductive SynthCall :=
| Cancel
| Speak (text : jsstr) (lang : jsstr) (rate pitch : Z).

(** The arguments of one [fetch] call of [askQuestion]. *)
Record AskRequest := {
  ask_url : jsstr;
  ask_method : jsstr;
  ask_headers : list (jsstr * jsstr);
  ask_body : json_text
}.

(** A call made to a recognizer. *)
Inductive RecognizerCall :=
| Start (r : Recognition)
| Stop.

(** The page: the component state, the [fetch] calls not yet settled, and
    the calls made so far to the synthesizer and to recognizers. *)
Record Page := {
  state : State;
  in_flight : list AskRequest;
  synth : list SynthCall;
  recognizer : list RecognizerCall
}.

Definition initial_page : Page :=
  {| state := initial_state; in_flight := []; synth := []; recognizer := [] |}.

Definition with_state (f : State -> State) (p : Page) : Page :=
  {| state := f (state p); in_flight := in_flight p;
     synth := synth p; recognizer := recognizer p |}.

Definition with_in_flight (l : list AskRequest) (p : Page) : Page :=
  {| state := state p; in_flight := l;
     synth := synth p; recognizer := recognizer p |}.

Definition call_synth (c : SynthCall) (p : Page) : Page :=
  {| state := state p; in_flight := in_flight p;
     synth := synth p ++ [c]; recognizer := recognizer p |}.

Definition call_recognizer (c : RecognizerCall) (p : Page) : Page :=
  {| state := state p; in_flight := in_flight p;
     synth := synth p; recognizer := recognizer p ++ [c] |}.

(** How one [fetch] of [askQuestion] settles, up to [await response.json()]. *)
Inductive Settled :=
| FetchRejected (message : jsstr)
| JsonRejected (status : Z) (message : jsstr)
| Responded (status : Z) (data : value).

(** [response.ok]. *)
Definition ok (status : Z) : bool := (200 <=? status)%Z && (status <=? 299)%Z.

(** What the recognizer reports to the handlers set by [onStartListening]:
    [event.error] and the transcript of [event.results] may be missing. *)
Inductive RecognizerEvent :=
| onstart
| onerror (code : option jsstr)
| onend
| onresult (transcript : option jsstr).

(** Everything that can happen to the page. *)
Inductive Event :=
| Mounted
| Typed (text : jsstr)
| ClickStart
| ClickStop
| ClickAsk
| ClickReplay
| Recognized (ev : RecognizerEvent)
| Settle (i : nat) (o : Settled).

(** [x || dflt] for a string that may be [undefined]. *)
Definition or_str (x : option jsstr) (dflt : jsstr) : jsstr :=
  match x with
  | Some s => if is_empty s then dflt else s
  | None => dflt
  end.

Fixpoint remove_nth {A} (i : nat) (l : list A) : list A :=
  match i, l with
  | _, [] => []
  | O, _ :: l' => l'
  | S i', x :: l' => x :: remove_nth i' l'
  end.

(** The elements the three conditional blocks of lines 146-156 evaluate
    to. *)
Inductive Display :=
| LoadingIndicator
| ErrorMessage (text : value)
| AnswerBox (route_label : value) (text : value).

Definition render_results (s : State) : list Display :=
  (if loading s then [LoadingIndicator] else [])
  ++ (if truthy (error s) then [ErrorMessage (error s)] else [])
  ++ (if truthy (answer s)
      then [AnswerBox (or (route s) (VString (str "unknown"))) (answer s)]
      else []).

(** What React accepts as a child in [{answer}], [{route || "unknown"}] and
    [{error}]: anything but an object, arrays included when every item is
    accepted.  An object makes the render throw ("Objects are not valid as
    a React child"). *)
Fixpoint react_child (v : value) : bool :=
  match v with
  | VObject _ => false
  | VArray items => forallb react_child items
  | _ => true
  end.

(** What React puts on the page for lines 146-156: the elements of
    [render_results], or nothing at all ([None]) when a child of a block
    that is rendered is an object; the component then throws while
    rendering and, with no error boundary, React unmounts the page. *)
Definition render_page (s : State) : option (list Display) :=
  if (truthy (error s) && negb (react_child (error s)))
     || (truthy (answer s)
         && negb (react_child (or (route s) (VString (str "unknown")))
                  && react_child (answer s)))
  then None
  else Some (render_results s).

Definition shows_loading (d : Display) : bool :=
  match d with LoadingIndicator => true | _ => false end.
Definition shows_error (d : Display) : bool :=
  match d with ErrorMessage _ => true | _ => false end.
Definition shows_answer (d : Display) : bool :=
  match d with AnswerBox _ _ => true | _ => false end.

(** The [disabled] and conditional-rendering tests of the three buttons
    and of the replay button. *)
Definition start_clickable (s : State) : bool :=
  negb (listening s) && negb (loading s).
Definition stop_clickable (s : State) : bool := listening s.
Definition ask_clickable (s : State) : bool :=
  negb (loading s || is_empty (trim (question s))).
Definition replay_clickable (s : State) : bool := truthy (answer s).

(** [typeof window !== "undefined" && "speechSynthesis" in window]. *)
Definition synthesis_available (window : option Window) : bool :=
  match window with
  | Some w => speechSynthesis w
  | None => false
  end.

(** The label of the start button, lines 115-119. *)
Definition start_button_label (s : State) : jsstr :=
  if negb (mounted s) then str "Checking Voice Support..."
  else if speechSupported s then str "Start Voice Question"
  else str "Voice Not Supported".

Section Component.
Variable window : option Window.
Variable engine : Engine.

(** [speak(text)]: the second component is what the call throws, if it
    does (the utterance constructor converts [text] to a string). *)
Definition speak (text : value) (p : Page) : Page * option thrown :=
  if negb (synthesis_available window) then (p, None)
  else
    let p1 := call_synth Cancel p in
    match ToString engine text with
    | inl m => (p1, Some (ThrownError m))
    | inr s => (call_synth (Speak s (str "en-US") 1 1) p1, None)
    end.

(** [askQuestion(text)] up to its first [await]. *)
Definition askQuestion (text : jsstr) (p : Page) : Page :=
  let cleaned := trim text in
  if is_empty cleaned then p
  else
    let p1 := with_state (setLoading true) p in
    let p2 := with_state (setError (VString (str ""))) p1 in
    with_in_flight
      (in_flight p2 ++
         [{| ask_url := str "/api/ask";
             ask_method := str "POST";
             ask_headers := [(str "Content-Type", str "application/json")];
             ask_body := JSON_stringify (VObject [(str "question", VString cleaned)]) |}])
      p2.

(** The rest of the [try] block once the [fetch] has settled. *)
Definition askQuestion_try (o : Settled) (p : Page) : Page * option thrown :=
  match o with
  | FetchRejected m => (p, Some (ThrownError m))
  | JsonRejected _ m => (p, Some (ThrownError m))
  | Responded status data =>
      if negb (ok status) then
        match ToString engine (or (opt_prop data (str "detail"))
                                  (VString (str "Request failed."))) with
        | inr msg => (p, Some (ThrownError msg))
        | inl m => (p, Some (ThrownError m))
        end
      else
        match prop data (str "answer") with
        | None => (p, Some (ThrownError (null_read_message engine (str "answer"))))
        | Some a =>
            let p1 := with_state (setAnswer (or a (VString (str "")))) p in
            let p2 := with_state
                        (setRoute (or (opt_prop data (str "route")) (VString (str ""))))
                        p1 in
            if truthy a then speak a p2 else (p2, None)
        end
  end.

(** [askQuestion] from the settled [fetch] to its end: [try], [catch],
    [finally]. *)
Definition askQuestion_settled (o : Settled) (p : Page) : Page :=
  let (p1, t) := askQuestion_try o p in
  let p2 := match t with
            | Some err => with_state (setError (normalizeMessage err)) p1
            | None => p1
            end in
  with_state (setLoading false) p2.

(** The handlers [onStartListening] installs on the recognizer. *)
Definition recognition_handler (ev : RecognizerEvent) (p : Page) : Page :=
  match ev with
  | onstart => with_state (setListening true) p
  | onerror code =>
      let p1 := with_state (setListening false) p in
      with_state
        (setError (VString (str "Voice error: " ++ or_str code (str "unknown"))))
        p1
  | onend => with_state (setListening false) p
  | onresult t =>
      let transcript := or_str t (str "") in
      askQuestion transcript (with_state (setQuestion transcript) p)
  end.

Definition onStartListening (p : Page) : Page :=
  let p1 := with_state (setError (VString (str ""))) p in
  match createSpeechRecognition window with
  | None =>
      with_state
        (setError (VString (str "Speech recognition is not supported in this browser.")))
        p1
  | Some recognition =>
      call_recognizer (Start recognition)
        (with_state (set_recognitionRef (Some recognition)) p1)
  end.

Definition onStopListening (p : Page) : Page :=
  let p1 := match recognitionRef (state p) with
            | Some _ => call_recognizer Stop p
            | None => p
            end in
  with_state (setListening false) p1.

(** The effect of lines 34-40. *)
Definition on_mount (p : Page) : Page :=
  let supported :=
    match window with
    | Some w => SpeechRecognition w || webkitSpeechRecognition w
    | None => false
    end in
  with_state (setSpeechSupported supported) (with_state (setMounted true) p).

(** A recognizer event needs a recognizer that was started. *)
Definition has_started (p : Page) : bool :=
  existsb (fun c => match c with Start _ => true | Stop => false end) (recognizer p).

(** One event; [None] when the page cannot receive it (control hidden or
    disabled, no recognizer, no such pending request). *)
Definition step (p : Page) (ev : Event) : option Page :=
  match ev with
  | Mounted => Some (on_mount p)
  | Typed text => Some (with_state (setQuestion text) p)
  | ClickStart =>
      if start_clickable (state p) then Some (onStartListening p) else None
  | ClickStop =>
      if stop_clickable (state p) then Some (onStopListening p) else None
  | ClickAsk =>
      if ask_clickable (state p) then Some (askQuestion (question (state p)) p)
      else None
  | ClickReplay =>
      if replay_clickable (state p) then Some (fst (speak (answer (state p)) p))
      else None
  | Recognized rev =>
      if has_started p then Some (recognition_handler rev p) else None
  | Settle i o =>
      match nth_error (in_flight p) i with
      | Some _ =>
          Some (askQuestion_settled o (with_in_flight (remove_nth i (in_flight p)) p))
      | None => None
      end
  end.

Fixpoint run (evs : list Event) (p : Page) : option Page :=
  match evs with
  | [] => Some p
  | ev :: rest =>
      match step p ev with
      | Some p' => run rest p'
      | None => None
      end
  end.

Inductive reachable : Page -> Prop :=
| reachable_initial : reachable initial_page
| reachable_step p ev p' :
    reachable p -> step p ev = Some p' -> reachable p'.

(** The pages of a page that is still mounted: reached through pages that
    React could all render. *)
Inductive mounted_page : Page -> Prop :=
| mounted_initial : mounted_page initial_page
| mounted_step p ev p' l :
    mounted_page p -> step p ev = Some p' ->
    render_page (state p') = Some l -> mounted_page p'.

(** A run of events on a mounted page; [None] also when a page on the way
    cannot be rendered. *)
Fixpoint run_mounted (evs : list Event) (p : Page) : option Page :=
  match evs with
  | [] => Some p
  | ev :: rest =>
      match step p ev with
      | Some p' =>
          match render_page (state p') with
          | Some _ => run_mounted rest p'
          | None => None
          end
      | None => None
      end
  end.

(** The pages reached without ever having two requests in flight. *)
Inductive one_at_a_time : Page -> Prop :=
| one_initial : one_at_a_time initial_page
| one_step p ev p' :
    one_at_a_time p -> step p ev = Some p' ->
    List.length (in_flight p') <= 1 -> one_at_a_time p'.

End Component.

End Ui.

(* ===================================================================== *)
(** ** Concrete requests, backends, browsers and sessions                 *)
(* ===================================================================== *)

Module Examples.
Import Js.

(** No variable set, and both variables set. *)
Definition env_unset : Proxy.ProcessEnv :=
  {| Proxy.BACKEND_BASE_URL := None; Proxy.BACKEND_API_KEY := None |}.
Definition env_keyed : Proxy.ProcessEnv :=
  {| Proxy.BACKEND_BASE_URL := Some (str "http://backend:9000");
     Proxy.BACKEND_API_KEY := Some (str "s3cret") |}.

(** Request bodies [{"question": " hi ", "debug": true}], [{"question": "hi"}]
    and [{"question": "   "}]. *)
Definition body_hi_extra : value :=
  VObject [(str "question", VString (str " hi ")); (str "debug", VBool true)].
Definition body_hi : value :=
  VObject [(str "question", VString (str "hi"))].
Definition body_blank : value :=
  VObject [(str "question", VString (str "   "))].

(** The payloads [{"answer": "Room 12", "route": "structured"}],
    [{"answer": "", "route": "structured"}] and [{"detail": "Rate limited."}]. *)
Definition payload_answer : value :=
  VObject [(str "answer", VString (str "Room 12"));
           (str "route", VString (str "structured"))].
Definition payload_empty_answer : value :=
  VObject [(str "answer", VString (str ""));
           (str "route", VString (str "structured"))].
Definition payload_detail : value :=
  VObject [(str "detail", VString (str "Rate limited."))].

(** A backend that answers 200 with [payload_answer]. *)
Definition backend_answers : Proxy.Backend :=
  fun _ => Some {| Proxy.backend_status := 200;
                   Proxy.backend_json := Some payload_answer |}.

(** What [JSON.parse] gives for the body
    [{"answer": "Room 12", "score": 1e400}], and a backend that answers 200
    with it. *)
Definition payload_overflow : value :=
  VObject [(str "answer", VString (str "Room 12"));
           (str "score", VNumber (S754_infinity false))].
Definition backend_overflow : Proxy.Backend :=
  fun _ => Some {| Proxy.backend_status := 200;
                   Proxy.backend_json := Some payload_overflow |}.

(** A backend that answers 204 No Content: the empty body is not JSON. *)
Definition backend_no_content : Proxy.Backend :=
  fun _ => Some {| Proxy.backend_status := 204; Proxy.backend_json := None |}.

(** A backend that answers 502 with an HTML page. *)
Definition backend_bad_gateway : Proxy.Backend :=
  fun _ => Some {| Proxy.backend_status := 502; Proxy.backend_json := None |}.

(** A backend that cannot be reached. *)
Definition backend_down : Proxy.Backend := fun _ => None.

(** A browser with every capability, one without speech synthesis and one
    without speech recognition. *)
Definition browser : option Ui.Window :=
  Some {| Ui.SpeechRecognition := false; Ui.webkitSpeechRecognition := true;
          Ui.speechSynthesis := true |}.
Definition browser_mute : option Ui.Window :=
  Some {| Ui.SpeechRecognition := true; Ui.webkitSpeechRecognition := false;
          Ui.speechSynthesis := false |}.
Definition browser_deaf : option Ui.Window :=
  Some {| Ui.SpeechRecognition := false; Ui.webkitSpeechRecognition := false;
          Ui.speechSynthesis := true |}.

(** Number to string as V8 has it for zero, NaN, the infinities and whole
    numbers below 10^21; the digits of any other finite number are not
    modelled, and "NaN" stands for them. *)
Definition example_number (x : spec_float) : jsstr :=
  match x with
  | S754_zero _ => str "0"
  | S754_infinity false => str "Infinity"
  | S754_infinity true => str "-Infinity"
  | S754_nan => str "NaN"
  | S754_finite sign m (Z0 as e) | S754_finite sign m (Zpos _ as e) =>
      (if sign then str "-" else [])
        ++ str (NilEmpty.string_of_uint (N.to_uint (Z.to_N (Z.pos m * 2 ^ e))))
  | S754_finite _ _ (Zneg _) => str "NaN"
  end.

(** ToString as V8 has it, number formatting apart: an array joins its
    items with commas ([null] and [undefined] as the empty string), a plain
    object gives "[object Object]", and an object with an own [toString]
    member, which JSON cannot make callable, raises a TypeError. *)
Fixpoint example_ToString (v : value) : jsstr + jsstr :=
  match v with
  | VUndefined => inr (str "undefined")
  | VNull => inr (str "null")
  | VBool true => inr (str "true")
  | VBool false => inr (str "false")
  | VNumber x => inr (example_number x)
  | VString s => inr s
  | VArray items =>
      (fix join (l : list value) : jsstr + jsstr :=
         match l with
         | [] => inr []
         | item :: rest =>
             match (match item with
                    | VUndefined | VNull => inr []
                    | _ => example_ToString item
                    end) with
             | inl m => inl m
             | inr a =>
                 match rest with
                 | [] => inr a
                 | _ :: _ =>
                     match join rest with
                     | inl m => inl m
                     | inr b => inr (a ++ str "," ++ b)
                     end
                 end
             end
         end) items
  | VObject props =>
      if existsb (fun kv => jsstr_eqb (str "toString") (fst kv)) props
      then inl (str "Cannot convert object to primitive value")
      else inr (str "[object Object]")
  end.

(** The engine of the examples; they only ever convert strings. *)
Definition engine : Ui.Engine :=
  {| Ui.ToString_other := example_ToString;
     Ui.null_read_message :=
       fun k => str "Cannot read properties of null (reading '" ++ k ++ str "')" |}.

(** Type a question, ask it, get [payload_answer], ask again. *)
Definition session_ask_again : list Ui.Event :=
  [Ui.Typed (str "Where is the lab?");
   Ui.ClickAsk;
   Ui.Settle 0 (Ui.Responded 200 payload_answer);
   Ui.ClickAsk].

(** Ask, get an answer, ask again and get a 400. *)
Definition session_answer_then_error : list Ui.Event :=
  session_ask_again ++ [Ui.Settle 0 (Ui.Responded 400 payload_detail)].

(** Start listening, ask the typed question, then the recognizer gives up. *)
Definition session_voice_error_while_loading : list Ui.Event :=
  [Ui.Typed (str "Where is the lab?");
   Ui.ClickStart;
   Ui.Recognized Ui.onstart;
   Ui.ClickAsk;
   Ui.Recognized (Ui.onerror (Some (str "no-speech")))].

(** Ask and get [payload_empty_answer]. *)
Definition session_empty_answer : list Ui.Event :=
  [Ui.Typed (str "Where is the lab?");
   Ui.ClickAsk;
   Ui.Settle 0 (Ui.Responded 200 payload_empty_answer)].

(** Ask and get [payload_answer]. *)
Definition session_answer : list Ui.Event :=
  [Ui.Typed (str "Where is the lab?");
   Ui.ClickAsk;
   Ui.Settle 0 (Ui.Responded 200 payload_answer)].

(** Load the page and click the start button. *)
Definition session_start_unsupported : list Ui.Event :=
  [Ui.Mounted; Ui.ClickStart].

(** Request bodies [{"question": 42}] and [{"q": "hi"}]. *)
Definition body_number_question : value :=
  VObject [(str "question", VNumber (S754_finite false 21 1))].
Definition body_no_question : value :=
  VObject [(str "q", VString (str "hi"))].

(** The payload [{"detail": "Rate limited.", "retry": true}] and a backend
    that answers 429 with it. *)
Definition payload_rate_limited : value :=
  VObject [(str "detail", VString (str "Rate limited.")); (str "retry", VBool true)].
Definition backend_rate_limited : Proxy.Backend :=
  fun _ => Some {| Proxy.backend_status := 429;
                   Proxy.backend_json := Some payload_rate_limited |}.

(** Start listening, then stop. *)
Definition session_listening : list Ui.Event :=
  [Ui.Mounted; Ui.ClickStart; Ui.Recognized Ui.onstart].

(** Type a question and submit it. *)
Definition session_asked : list Ui.Event :=
  [Ui.Typed (str "Where is the lab?"); Ui.ClickAsk].

(** Submit a question; the fetch is rejected. *)
Definition session_network_failure : list Ui.Event :=
  session_asked ++ [Ui.Settle 0 (Ui.FetchRejected (str "Failed to fetch"))].

(** Submit a question; the answer is 502 with the body [{}]. *)
Definition session_bad_gateway : list Ui.Event :=
  session_asked ++ [Ui.Settle 0 (Ui.Responded 502 (VObject []))].

(** Get an answer, then a 200 whose body is
    [{"detail": "Invalid backend response."}]. *)
Definition session_answer_then_invalid : list Ui.Event :=
  session_ask_again
    ++ [Ui.Settle 0 (Ui.Responded 200 (Proxy.detail "Invalid backend response."))].

(** Start listening and stop. *)
Definition session_stopped : list Ui.Event :=
  session_listening ++ [Ui.ClickStop].

(** Start listening and say " where is the lab ". *)
Definition session_voice_question : list Ui.Event :=
  session_listening
    ++ [Ui.Recognized (Ui.onresult (Some (str " where is the lab ")))].

(** Get an answer and replay it. *)
Definition session_replay : list Ui.Event :=
  session_answer ++ [Ui.ClickReplay].

(** Start listening and ask the typed question; the voice result arrives
    while that request is in flight and is submitted too; then the first
    request settles. *)
Definition session_overlap : list Ui.Event :=
  [Ui.Typed (str "Where is the lab?");
   Ui.ClickStart;
   Ui.Recognized Ui.onstart;
   Ui.ClickAsk;
   Ui.Recognized (Ui.onresult (Some (str "Who teaches Cloud Computing?")));
   Ui.Settle 0 (Ui.Responded 200 payload_answer)].

(** The recognizer gives up while the typed question is in flight; then its
    answer arrives. *)
Definition session_voice_error_then_answer : list Ui.Event :=
  session_voice_error_while_loading
    ++ [Ui.Settle 0 (Ui.Responded 200 payload_answer)].

(** The page a session leads to, from page load. *)
Definition page_after (window : option Ui.Window) (evs : list Ui.Event) : Ui.Page :=
  match Ui.run window engine evs Ui.initial_page with
  | Some p => p
  | None => Ui.initial_page
  end.

End Examples.

(* ===================================================================== *)
(** ** Properties of the proxy route                                      *)
(* ===================================================================== *)

Import Js Proxy.
Import MonadNotation.
Local Open Scope monad_scope.

Section ExecLaws.
Context {A B : Type}.

Lemma exec_ret (x : A) log : exec (ret x) log = (inr x, log).
Proof. reflexivity. Qed.

Lemma exec_bind (c : M A) (k : A -> M B) log :
  exec (bind c k) log =
    match exec c log with
    | (inr x, log') => exec (k x) log'
    | (inl e, log') => (inl e, log')
    end.
Proof.
  unfold exec. cbn.
  destruct (runState (unEitherT c) log) as [[e|x] log']; reflexivity.
Qed.

Lemma exec_catch (c : M A) (h : exn -> M A) log :
  exec (catch c h) log =
    match exec c log with
    | (inl e, log') => exec (h e) log'
    | (inr x, log') => (inr x, log')
    end.
Proof.
  unfold exec. cbn.
  destruct (runState (unEitherT c) log) as [[e|x] log']; reflexivity.
Qed.
End ExecLaws.

Lemma exec_await_fetch backend req log :
  exec (await_fetch backend req) log =
    (match backend req with Some r => inr r | None => inl TypeError end,
     log ++ [req]).
Proof.
  unfold await_fetch, exec. cbn. destruct (backend req); reflexivity.
Qed.

(** Building a response makes no call. *)
Lemma exec_NextResponse_json_log data st log :
  snd (exec (NextResponse_json data st) log) = log.
Proof.
  unfold NextResponse_json.
  destruct (JSON_stringify data); [|reflexivity].
  destruct (negb _); [reflexivity|].
  destruct (null_body_status st); reflexivity.
Qed.

(** A status 200..599 that allows a body gives the response asked for,
    when the data has a JSON text. *)
Lemma exec_NextResponse_json_ok data st log j :
  (200 <= st <= 599)%Z -> null_body_status st = false ->
  JSON_stringify data = Some j ->
  exec (NextResponse_json data st) log =
    (inr {| status := st; json := Some j |}, log).
Proof.
  intros [H1 H2] Hn Hj. unfold NextResponse_json. rewrite Hj, Hn.
  apply Z.leb_le in H1, H2. rewrite H1, H2. reflexivity.
Qed.

(** Lines 26-27 on a body whose [question] is a string. *)
Lemma trimmed_question (b : value) (q : jsstr) :
  opt_prop b (str "question") = VString q ->
  call_trim (or (opt_prop b (str "question")) (VString (str "")))
  = ret (VString (trim q)).
Proof.
  intros ->. destruct q as [|c q]; reflexivity.
Qed.

Lemma exec_POST_try env backend b q log :
  opt_prop b (str "question") = VString q ->
  exec (POST_try env backend {| request_json := Some b |}) log
  = exec (POST_validated env backend (VString (trim q))) log.
Proof.
  intros Hq. unfold POST_try, await_request_json. cbn [request_json await].
  rewrite exec_bind, exec_ret, exec_bind, (trimmed_question _ _ Hq), exec_ret.
  reflexivity.
Qed.

Lemma nonempty_truthy (s : jsstr) : s <> [] -> truthy (VString s) = true.
Proof. destruct s; [congruence | reflexivity]. Qed.

(** With a non-empty question the handler calls [fetch] once, and
    everything after the call leaves the log alone. *)
Lemma exec_POST_validated_log env backend s log :
  s <> [] ->
  snd (exec (POST_validated env backend (VString s)) log)
  = log ++ [query_request (backendConfig env) (VString s)].
Proof.
  intros Hs. unfold POST_validated. rewrite (nonempty_truthy _ Hs). cbn [negb].
  rewrite exec_bind, exec_await_fetch.
  destruct (backend _) as [resp|]; [|reflexivity].
  rewrite exec_bind, exec_catch. unfold await_response_json.
  destruct (backend_json resp) as [payload|]; cbn [await];
    rewrite ?exec_ret; destruct (negb (ok resp));
    apply exec_NextResponse_json_log.
Qed.

(** [POST] returns a response on every input: whatever the [try] block
    throws, the [catch] clause answers 500. *)
Lemma POST_returns env backend request :
  exists r, fst (run (POST env backend request)) = inr r.
Proof.
  unfold run, POST. rewrite exec_catch.
  destruct (exec (POST_try env backend request) []) as [[e|r] log].
  - eexists. reflexivity.
  - eexists. reflexivity.
Qed.

(** The [catch] clause makes no call: the log of [POST] is that of its
    [try] block. *)
Lemma POST_log env backend request :
  snd (run (POST env backend request))
  = snd (exec (POST_try env backend request) []).
Proof.
  unfold run, POST. rewrite exec_catch.
  destruct (exec (POST_try env backend request) []) as [[e|r] log]; reflexivity.
Qed.

(** C4. A request body whose [question] trims to the empty string is
    answered with status 400 and [{detail: "Question is required."}], and
    no call to the backend is made. *)
Theorem POST_blank_question_400 env backend b q :
  opt_prop b (str "question") = VString q ->
  trim q = [] ->
  run (POST env backend {| request_json := Some b |})
  = (inr {| status := 400;
            json := JSON_stringify (detail "Question is required.") |},
     []).
Proof.
  intros Hq Ht. unfold run, POST.
  rewrite exec_catch, (exec_POST_try _ _ _ _ _ Hq), Ht. reflexivity.
Qed.

(** C5. A request body with a non-empty trimmed question makes the proxy
    issue exactly one fetch: a POST to [<baseUrl>/query] whose body is the
    JSON text of [{question}], carrying the [X-API-Key] header exactly when
    the environment configures a (non-empty) key, with base URL
    [http://127.0.0.1:8001] when [BACKEND_BASE_URL] is not set. *)
Theorem POST_forwards_question_once env backend b q :
  opt_prop b (str "question") = VString q ->
  trim q <> [] ->
  exists req,
    snd (run (POST env backend {| request_json := Some b |})) = [req]
    /\ url req = baseUrl (backendConfig env) ++ str "/query"
    /\ method req = str "POST"
    /\ body req = JSON_stringify (VObject [(str "question", VString (trim q))])
    /\ (In (str "X-API-Key") (map fst (headers req))
        <-> exists k, BACKEND_API_KEY env = Some k /\ k <> [])
    /\ (forall k, In (str "X-API-Key", k) (headers req) -> BACKEND_API_KEY env = Some k)
    /\ (BACKEND_BASE_URL env = None -> url req = str "http://127.0.0.1:8001/query").
Proof.
  intros Hq Ht.
  exists (query_request (backendConfig env) (VString (trim q))).
  split.
  { rewrite POST_log, (exec_POST_try _ _ _ _ _ Hq). 
    apply (exec_POST_validated_log env backend (trim q) [] Ht). }
  repeat split; try reflexivity.
  - cbn. unfold request_headers, env_or.
    destruct (BACKEND_API_KEY env) as [k|]; [destruct k as [|c k]|]; cbn.
    + intros [H|[]]. discriminate H.
    + intros _. eexists; split; [reflexivity | discriminate].
    + intros [H|[]]. discriminate H.
  - intros (k & Hk & Hne). cbn. unfold request_headers, env_or. rewrite Hk.
    destruct k; [congruence|]. cbn. right. left. reflexivity.
  - intros k. cbn. unfold request_headers, env_or.
    destruct (BACKEND_API_KEY env) as [k'|]; [destruct k' as [|c k']|]; cbn.
    + intros [H|[]]. discriminate H.
    + intros [H|[H|[]]]; [discriminate H | congruence].
    + intros [H|[]]. discriminate H.
  - intros Hb. cbn. rewrite Hb. reflexivity.
Qed.

(** A value with no [undefined], NaN, infinity or negative zero inside
    comes back unchanged from [JSON.stringify] followed by [JSON.parse]. *)
Lemma JSON_round_trip : forall v,
  json_stable v = true ->
  exists j, JSON_stringify v = Some j /\ JSON_parse j = v.
Proof.
  fix IH 1. intros v Hv. destruct v as [| |b|x|s|items|props].
  - discriminate.
  - eexists; split; reflexivity.
  - eexists; split; reflexivity.
  - destruct x as [[|]| | |]; try discriminate; eexists; split; reflexivity.
  - eexists; split; reflexivity.
  - exists (JArray (map (fun item => match JSON_stringify item with
                                     | Some j => j | None => JNull end) items)).
    split; [reflexivity|].
    change (VArray (map JSON_parse
                      (map (fun item => match JSON_stringify item with
                                        | Some j => j | None => JNull end) items))
            = VArray items).
    f_equal. change (forallb json_stable items = true) in Hv.
    induction items as [|i items IHi]; [reflexivity|].
    cbn [forallb] in Hv. apply andb_prop in Hv as [Hi Hr].
    cbn [map]. destruct (IH i Hi) as (j & -> & ->). f_equal. exact (IHi Hr).
  - exists (JObject (flat_map (fun '(k, item) =>
                                 match JSON_stringify item with
                                 | Some j => [(k, j)] | None => [] end) props)).
    split; [reflexivity|].
    change (VObject (map (fun '(k, item) => (k, JSON_parse item))
                       (flat_map (fun '(k, item) =>
                                    match JSON_stringify item with
                                    | Some j => [(k, j)] | None => [] end) props))
            = VObject props).
    f_equal. change (forallb (fun '(_, item) => json_stable item) props = true) in Hv.
    induction props as [|[k i] props IHp]; [reflexivity|].
    cbn [forallb] in Hv. apply andb_prop in Hv as [Hi Hr].
    cbn [flat_map]. destruct (IH i Hi) as (j & -> & Hj).
    cbn [app map]. rewrite Hj. f_equal. exact (IHp Hr).
Qed.

(** C6, as the code has it. When the backend answers a forwarded question
    with a 2xx status and a JSON payload, the proxy answers 200 with the
    JSON text [JSON.stringify] gives the parsed payload. That text parses
    back to the backend's payload whenever the payload holds no number
    that parsed to an infinity (written back as [null]) and no negative
    zero (written back as [0]). *)
Theorem POST_relays_serialised env backend b q resp payload j :
  opt_prop b (str "question") = VString q ->
  trim q <> [] ->
  backend (query_request (backendConfig env) (VString (trim q))) = Some resp ->
  ok resp = true ->
  backend_json resp = Some payload ->
  JSON_stringify payload = Some j ->
  fst (run (POST env backend {| request_json := Some b |}))
  = inr {| status := 200; json := Some j |}
  /\ (json_stable payload = true -> JSON_parse j = payload).
Proof.
  intros Hq Ht Hb Hok Hp Hj. split.
  - unfold run, POST.
    rewrite exec_catch, (exec_POST_try _ _ _ _ _ Hq).
    unfold POST_validated. rewrite (nonempty_truthy _ Ht). cbn [negb].
    rewrite exec_bind, exec_await_fetch, Hb, exec_bind, exec_catch.
    unfold await_response_json. rewrite Hp. cbn [await].
    rewrite exec_ret, Hok. cbn [negb].
    rewrite (exec_NextResponse_json_ok payload 200 _ j); [reflexivity|lia|reflexivity|exact Hj].
  - intros Hs. destruct (JSON_round_trip payload Hs) as (j' & Hj' & Hparse).
    congruence.
Qed.

(** C2, as the code has it. When the backend's body is not JSON the proxy
    always returns a response and never throws: status 200 for a 2xx
    backend status, the backend's own status otherwise, both with the
    detail "Invalid backend response."; and 500 with "Failed to process
    request." when that status cannot be given to a response with a
    body. *)
Theorem POST_unparsable_backend_body env backend b q resp :
  opt_prop b (str "question") = VString q ->
  trim q <> [] ->
  backend (query_request (backendConfig env) (VString (trim q))) = Some resp ->
  backend_json resp = None ->
  fst (run (POST env backend {| request_json := Some b |}))
  = inr (if ok resp then
           {| status := 200;
              json := JSON_stringify (detail "Invalid backend response.") |}
         else if (200 <=? backend_status resp)%Z && (backend_status resp <=? 599)%Z
                 && negb (null_body_status (backend_status resp)) then
           {| status := backend_status resp;
              json := JSON_stringify (detail "Invalid backend response.") |}
         else
           {| status := 500;
              json := JSON_stringify (detail "Failed to process request.") |}).
Proof.
  intros Hq Ht Hb Hp. unfold run, POST.
  rewrite exec_catch, (exec_POST_try _ _ _ _ _ Hq).
  unfold POST_validated. rewrite (nonempty_truthy _ Ht). cbn [negb].
  rewrite exec_bind, exec_await_fetch, Hb, exec_bind, exec_catch.
  unfold await_response_json. rewrite Hp. cbn [await].
  destruct (ok resp); [reflexivity|].
  cbn [negb]. unfold NextResponse_json.
  destruct ((200 <=? backend_status resp)%Z && (backend_status resp <=? 599)%Z);
    [|reflexivity].
  destruct (null_body_status (backend_status resp)); reflexivity.
Qed.

(** C10. The handler reads nothing of the request body but [question]:
    two bodies whose questions trim to the same string get the same
    response and cause the same calls, and any call made carries exactly
    [{question: <trimmed question>}]. *)
Theorem POST_only_reads_question env backend b1 b2 q1 q2 :
  opt_prop b1 (str "question") = VString q1 ->
  opt_prop b2 (str "question") = VString q2 ->
  trim q1 = trim q2 ->
  run (POST env backend {| request_json := Some b1 |})
  = run (POST env backend {| request_json := Some b2 |})
  /\ forall req,
       In req (snd (run (POST env backend {| request_json := Some b1 |}))) ->
       body req = JSON_stringify (VObject [(str "question", VString (trim q1))]).
Proof.
  intros H1 H2 Ht. split.
  - unfold run, POST.
    rewrite !exec_catch, (exec_POST_try _ _ _ _ _ H1), (exec_POST_try _ _ _ _ _ H2), Ht.
    reflexivity.
  - intros req. rewrite POST_log, (exec_POST_try _ _ _ _ _ H1).
    destruct (trim q1) as [|c s] eqn:E.
    + intros [].
    + rewrite exec_POST_validated_log by discriminate.
      intros [<-|[]]. reflexivity.
Qed.

Import Examples.

Lemma POST_blank_question_400_witness :
  opt_prop body_blank (str "question") = VString (str "   ")
  /\ trim (str "   ") = []
  /\ run (POST env_keyed backend_answers {| request_json := Some body_blank |})
     = (inr {| status := 400;
               json := JSON_stringify (detail "Question is required.") |},
        []).
Proof.
  split; [reflexivity|]. split; [reflexivity|].
  apply (POST_blank_question_400 env_keyed backend_answers body_blank (str "   "));
    reflexivity.
Defined.

Lemma POST_forwards_question_once_witness :
  opt_prop body_hi_extra (str "question") = VString (str " hi ")
  /\ trim (str " hi ") <> []
  /\ exists req,
       snd (run (POST env_keyed backend_answers {| request_json := Some body_hi_extra |}))
       = [req]
       /\ url req = str "http://backend:9000/query"
       /\ body req = JSON_stringify (VObject [(str "question", VString (str "hi"))])
       /\ In (str "X-API-Key", str "s3cret") (headers req).
Proof.
  split; [reflexivity|]. split; [cbv; discriminate|].
  destruct (POST_forwards_question_once env_keyed backend_answers body_hi_extra (str " hi "))
    as (req & Hlog & Hurl & _ & Hbody & _ & _ & _).
  - reflexivity.
  - cbv; discriminate.
  - exists req. split; [exact Hlog|]. split; [exact Hurl|]. split; [exact Hbody|].
    cbv in Hlog. injection Hlog as <-. cbv. right. left. reflexivity.
Defined.

(** C6 as stated fails: for the backend body
    [{"answer": "Room 12", "score": 1e400}], whose number parses to
    Infinity, the proxy relays [{"answer": "Room 12", "score": null}]. *)
Lemma POST_overflow_relayed_as_null :
  backend_overflow (query_request (backendConfig env_unset) (VString (str "hi")))
  = Some {| backend_status := 200; backend_json := Some payload_overflow |}
  /\ exists j,
       fst (run (POST env_unset backend_overflow {| request_json := Some body_hi |}))
       = inr {| status := 200; json := Some j |}
       /\ JSON_parse j
          = VObject [(str "answer", VString (str "Room 12")); (str "score", VNull)]
       /\ JSON_parse j <> payload_overflow.
Proof.
  split; [reflexivity|]. eexists. split; [reflexivity|].
  split; [reflexivity|]. vm_compute. discriminate.
Qed.

Lemma POST_relays_serialised_witness :
  opt_prop body_hi_extra (str "question") = VString (str " hi ")
  /\ trim (str " hi ") <> []
  /\ json_stable payload_answer = true
  /\ exists j,
       fst (run (POST env_unset backend_answers {| request_json := Some body_hi_extra |}))
       = inr {| status := 200; json := Some j |}
       /\ JSON_parse j = payload_answer.
Proof.
  split; [reflexivity|]. split; [cbv; discriminate|]. split; [reflexivity|].
  eexists.
  refine (match POST_relays_serialised env_unset backend_answers body_hi_extra (str " hi ")
                  {| backend_status := 200; backend_json := Some payload_answer |}
                  payload_answer _ eq_refl _ eq_refl eq_refl eq_refl eq_refl
          with conj H1 H2 => conj H1 (H2 eq_refl) end).
  cbv; discriminate.
Defined.

Lemma POST_unparsable_backend_body_witness :
  opt_prop body_hi (str "question") = VString (str "hi")
  /\ trim (str "hi") <> []
  /\ fst (run (POST env_unset backend_bad_gateway {| request_json := Some body_hi |}))
     = inr {| status := 502;
              json := JSON_stringify (detail "Invalid backend response.") |}.
Proof.
  split; [reflexivity|]. split; [cbv; discriminate|].
  apply (POST_unparsable_backend_body env_unset backend_bad_gateway body_hi (str "hi")
           {| backend_status := 502; backend_json := None |}).
  - reflexivity.
  - cbv; discriminate.
  - reflexivity.
  - reflexivity.
Defined.

(** C2 as stated fails: a backend that answers 204 No Content (an empty
    body, which is not JSON) gets status 200 from the proxy, which is
    neither 500 nor the backend's own status. *)
Lemma POST_no_content_answers_200 :
  exists resp r,
    backend_no_content (query_request (backendConfig env_unset) (VString (str "hi")))
    = Some resp
    /\ backend_json resp = None
    /\ fst (run (POST env_unset backend_no_content {| request_json := Some body_hi |}))
       = inr r
    /\ status r = 200%Z
    /\ status r <> 500%Z
    /\ status r <> backend_status resp.
Proof.
  eexists. eexists. split; [reflexivity|]. split; [reflexivity|].
  split; [reflexivity|]. split; [reflexivity|]. split; cbn; discriminate.
Qed.

Lemma POST_only_reads_question_witness :
  opt_prop body_hi_extra (str "question") = VString (str " hi ")
  /\ opt_prop body_hi (str "question") = VString (str "hi")
  /\ trim (str " hi ") = trim (str "hi")
  /\ run (POST env_keyed backend_answers {| request_json := Some body_hi_extra |})
     = run (POST env_keyed backend_answers {| request_json := Some body_hi |}).
Proof.
  split; [reflexivity|]. split; [reflexivity|]. split; [reflexivity|].
  apply (POST_only_reads_question env_keyed backend_answers body_hi_extra body_hi
           (str " hi ") (str "hi")); reflexivity.
Defined.

(* ===================================================================== *)
(** ** Properties of the voice UI                                         *)
(* ===================================================================== *)

Import Ui.

Section UiFacts.
Variable window : option Window.
Variable engine : Engine.

Lemma speak_state text p : state (fst (speak window engine text p)) = state p.
Proof.
  unfold speak. destruct (negb (synthesis_available window)); [reflexivity|].
  destruct (ToString engine text); reflexivity.
Qed.

Lemma askQuestion_blank text p :
  trim text = [] -> askQuestion text p = p.
Proof. intros H. unfold askQuestion. rewrite H. reflexivity. Qed.

Lemma askQuestion_loading text p :
  loading (state (askQuestion text p))
  = if is_empty (trim text) then loading (state p) else true.
Proof. unfold askQuestion. destruct (is_empty (trim text)); reflexivity. Qed.

Lemma askQuestion_error text p :
  error (state (askQuestion text p))
  = if is_empty (trim text) then error (state p) else VString [].
Proof. unfold askQuestion. destruct (is_empty (trim text)); reflexivity. Qed.

Lemma askQuestion_in_flight text p :
  List.length (in_flight (askQuestion text p))
  = if is_empty (trim text) then List.length (in_flight p)
    else S (List.length (in_flight p)).
Proof.
  unfold askQuestion. destruct (is_empty (trim text)); [reflexivity|].
  cbn. rewrite length_app. cbn. lia.
Qed.

Lemma askQuestion_settled_loading o p :
  loading (state (askQuestion_settled window engine o p)) = false.
Proof.
  unfold askQuestion_settled.
  destruct (askQuestion_try window engine o p) as [p1 [t|]]; reflexivity.
Qed.

Lemma onStartListening_loading p :
  loading (state (onStartListening window p)) = loading (state p).
Proof.
  unfold onStartListening. destruct (createSpeechRecognition window); reflexivity.
Qed.

Lemma onStartListening_listening p :
  listening (state (onStartListening window p)) = listening (state p).
Proof.
  unfold onStartListening. destruct (createSpeechRecognition window); reflexivity.
Qed.

Lemma onStopListening_state p :
  state (onStopListening p) = setListening false (state p).
Proof.
  unfold onStopListening. destruct (recognitionRef (state p)); reflexivity.
Qed.

(** A run of events from a reachable page ends in a reachable page. *)
Lemma run_reachable evs : forall p p',
  reachable window engine p ->
  run window engine evs p = Some p' ->
  reachable window engine p'.
Proof.
  induction evs as [|ev evs IH]; intros p p' Hp Hrun; cbn in Hrun.
  - injection Hrun as <-. exact Hp.
  - destruct (step window engine p ev) as [p1|] eqn:E; [|discriminate].
    apply (IH p1); [|exact Hrun]. exact (reachable_step _ _ _ _ _ Hp E).
Qed.

Lemma askQuestion_answer text p :
  answer (state (askQuestion text p)) = answer (state p).
Proof. unfold askQuestion. destruct (is_empty (trim text)); reflexivity. Qed.

Lemma askQuestion_synth text p :
  synth (askQuestion text p) = synth p.
Proof. unfold askQuestion. destruct (is_empty (trim text)); reflexivity. Qed.

(** What a [Settle] step does: the settled request leaves [in_flight] and
    the rest of [askQuestion] runs. *)
Lemma step_Settle p i o p' :
  step window engine p (Settle i o) = Some p' ->
  p' = askQuestion_settled window engine o
         (with_in_flight (remove_nth i (in_flight p)) p).
Proof.
  cbn. destruct (nth_error (in_flight p) i); [|discriminate].
  intros H. injection H as <-. reflexivity.
Qed.

(** While [loading] is set, [error] is empty or a recognizer error. *)
Lemma loading_error_step p ev p' :
  step window engine p ev = Some p' ->
  (loading (state p) = true ->
   error (state p) = VString [] \/
   exists code, error (state p) = VString (str "Voice error: " ++ code)) ->
  loading (state p') = true ->
  error (state p') = VString [] \/
  exists code, error (state p') = VString (str "Voice error: " ++ code).
Proof.
  intros Hstep IH. destruct ev as [|text| | | | |rev|i o]; cbn in Hstep.
  - injection Hstep as <-. exact IH.
  - injection Hstep as <-. exact IH.
  - destruct (start_clickable (state p)) eqn:G; [|discriminate].
    injection Hstep as <-. rewrite onStartListening_loading.
    unfold start_clickable in G. apply andb_prop in G as [_ G].
    intros L. rewrite L in G. discriminate.
  - destruct (stop_clickable (state p)); [|discriminate].
    injection Hstep as <-. rewrite onStopListening_state. exact IH.
  - destruct (ask_clickable (state p)); [|discriminate].
    injection Hstep as <-. rewrite askQuestion_loading, askQuestion_error.
    destruct (is_empty _); [exact IH | left; reflexivity].
  - destruct (replay_clickable (state p)); [|discriminate].
    injection Hstep as <-. rewrite speak_state. exact IH.
  - destruct (has_started p); [|discriminate].
    injection Hstep as <-. destruct rev as [|code| |t]; cbn.
    + exact IH.
    + intros _. right. eexists. reflexivity.
    + exact IH.
    + rewrite askQuestion_loading, askQuestion_error.
      destruct (is_empty _); [exact IH | left; reflexivity].
  - apply step_Settle in Hstep. subst p'.
    rewrite askQuestion_settled_loading. discriminate.
Qed.

Lemma loading_error_invariant p :
  reachable window engine p ->
  loading (state p) = true ->
  error (state p) = VString [] \/
  exists code, error (state p) = VString (str "Voice error: " ++ code).
Proof.
  induction 1 as [|p ev p' Hp IH Hstep].
  - discriminate.
  - exact (loading_error_step p ev p' Hstep IH).
Qed.

(** Each block of lines 146-156 is rendered exactly when its own field is
    truthy. *)
Lemma render_results_spec s :
  existsb shows_loading (render_results s) = loading s
  /\ existsb shows_error (render_results s) = truthy (error s)
  /\ existsb shows_answer (render_results s) = truthy (answer s).
Proof.
  unfold render_results.
  destruct (loading s), (truthy (error s)), (truthy (answer s)); cbn; auto.
Qed.

(** A request is in flight whenever [loading] is set. *)
Lemma loading_in_flight p :
  reachable window engine p ->
  loading (state p) = true -> in_flight p <> [].
Proof.
  induction 1 as [|p ev p' Hp IH Hstep]; [discriminate|].
  destruct ev as [|text| | | | |rev|i o]; cbn in Hstep.
  - injection Hstep as <-. exact IH.
  - injection Hstep as <-. exact IH.
  - destruct (start_clickable (state p)); [|discriminate].
    injection Hstep as <-. rewrite onStartListening_loading.
    intros L. specialize (IH L). unfold onStartListening.
    destruct (createSpeechRecognition window); exact IH.
  - destruct (stop_clickable (state p)); [|discriminate].
    injection Hstep as <-. rewrite onStopListening_state.
    intros L. specialize (IH L). unfold onStopListening.
    destruct (recognitionRef (state p)); exact IH.
  - destruct (ask_clickable (state p)); [|discriminate].
    injection Hstep as <-. rewrite askQuestion_loading.
    unfold askQuestion. destruct (is_empty _); [exact IH|].
    intros _. cbn. destruct (in_flight p); discriminate.
  - destruct (replay_clickable (state p)); [|discriminate].
    injection Hstep as <-. rewrite speak_state.
    intros L. specialize (IH L). unfold speak.
    destruct (negb _); [exact IH|]. destruct (ToString _ _); exact IH.
  - destruct (has_started p); [|discriminate].
    injection Hstep as <-. destruct rev as [|code| |t]; cbn; try exact IH.
    rewrite askQuestion_loading.
    unfold askQuestion. destruct (is_empty _); [exact IH|].
    intros _. cbn. destruct (in_flight p); discriminate.
  - apply step_Settle in Hstep. subst p'.
    rewrite askQuestion_settled_loading. discriminate.
Qed.

(** Without a recognizer constructor no recognizer is ever started and
    [listening] is never set. *)
Lemma unsupported_invariant p :
  createSpeechRecognition window = None ->
  reachable window engine p ->
  has_started p = false /\ listening (state p) = false.
Proof.
  intros Hn. induction 1 as [|p ev p' Hp [IHs IHl] Hstep]; [split; reflexivity|].
  destruct ev as [|text| | | | |rev|i o]; cbn in Hstep.
  - injection Hstep as <-. split; assumption.
  - injection Hstep as <-. split; assumption.
  - destruct (start_clickable (state p)); [|discriminate].
    injection Hstep as <-. unfold onStartListening. rewrite Hn. split; assumption.
  - destruct (stop_clickable (state p)); [|discriminate].
    injection Hstep as <-. rewrite onStopListening_state. split; [|reflexivity].
    unfold onStopListening, has_started in *.
    destruct (recognitionRef (state p)); cbn; [|exact IHs].
    rewrite existsb_app, IHs. reflexivity.
  - destruct (ask_clickable (state p)); [|discriminate].
    injection Hstep as <-. unfold askQuestion.
    destruct (is_empty _); split; assumption.
  - destruct (replay_clickable (state p)); [|discriminate].
    injection Hstep as <-. rewrite speak_state. split; [|assumption].
    unfold speak. destruct (negb _); [exact IHs|].
    destruct (ToString _ _); exact IHs.
  - rewrite IHs in Hstep. discriminate.
  - apply step_Settle in Hstep. subst p'. unfold askQuestion_settled.
    destruct (askQuestion_try window engine o _) as [p1 t] eqn:E.
    assert (has_started p1 = false /\ listening (state p1) = false) as [H1 H2].
    { unfold askQuestion_try in E. destruct o as [m|st m|st data].
      - injection E as <- <-. split; assumption.
      - injection E as <- <-. split; assumption.
      - destruct (negb (ok st)).
        + destruct (ToString _ _); injection E as <- <-; split; assumption.
        + destruct (prop data _) as [a|]; [|injection E as <- <-; split; assumption].
          destruct (truthy a); [|injection E as <- <-; split; assumption].
          unfold speak in E. destruct (negb (synthesis_available window)).
          * injection E as <- <-; split; assumption.
          * destruct (ToString engine a); injection E as <- <-; split; assumption. }
    destruct t; split; assumption.
Qed.

(** C8. When a submission's response has status 400 and a non-empty
    string [detail], the state after resolution has that string as
    [error], and [answer] is what it was before the submission. *)
Theorem askQuestion_rejected_400 text p i data X p' :
  X <> [] ->
  opt_prop data (str "detail") = VString X ->
  step window engine (askQuestion text p) (Settle i (Responded 400 data)) = Some p' ->
  error (state p') = VString X
  /\ answer (state p') = answer (state p).
Proof.
  intros HX Hd Hstep. apply step_Settle in Hstep. subst p'.
  rewrite <- (askQuestion_answer text p).
  unfold askQuestion_settled, askQuestion_try. cbn [ok Z.leb Z.compare Pos.compare Pos.compare_cont andb negb].
  rewrite Hd. unfold or. rewrite (nonempty_truthy _ HX). cbn.
  destruct X; [congruence|]. split; reflexivity.
Qed.

(** C9. When the browser has no recognizer constructor, [listening] is
    false at every reachable page, and [onStartListening] sets [error]
    to the not-supported message, starts no recognizer and leaves
    [listening] false. *)
Theorem startListening_unsupported p :
  createSpeechRecognition window = None ->
  reachable window engine p ->
  listening (state p) = false
  /\ error (state (onStartListening window p))
     = VString (str "Speech recognition is not supported in this browser.")
  /\ listening (state (onStartListening window p)) = false
  /\ recognizer (onStartListening window p) = recognizer p.
Proof.
  intros Hn Hp. destruct (unsupported_invariant p Hn Hp) as [_ Hl].
  unfold onStartListening. rewrite Hn. cbn. auto.
Qed.

End UiFacts.

Lemma page_after_reachable window evs :
  reachable window engine (page_after window evs).
Proof.
  unfold page_after.
  destruct (Ui.run window engine evs initial_page) as [p|] eqn:E.
  - exact (run_reachable window engine evs initial_page p
             (reachable_initial window engine) E).
  - apply reachable_initial.
Qed.

(** C1 as stated fails: at page load none of the three displays is
    rendered, and after an answer has arrived a second submission shows the
    loading indicator next to the answer box. *)
Lemma results_not_exactly_one :
  render_results (state initial_page) = []
  /\ reachable browser engine (page_after browser session_ask_again)
  /\ render_results (state (page_after browser session_ask_again))
     = [LoadingIndicator;
        AnswerBox (VString (str "structured")) (VString (str "Room 12"))]
  /\ ~ (forall p, reachable browser engine p ->
          List.length (render_results (state p)) <= 1).
Proof.
  split; [reflexivity|]. split; [apply page_after_reachable|].
  split; [reflexivity|].
  intros H. specialize (H _ (page_after_reachable browser session_ask_again)).
  vm_compute in H. lia.
Qed.

(** C7 as stated fails: a 200 response whose [answer] is the empty string
    triggers no speech, and in a browser without speech synthesis not even
    a non-empty answer does. *)
Lemma speech_not_always_triggered :
  step browser engine
    (askQuestion (str "Where is the lab?")
       (with_state (setQuestion (str "Where is the lab?")) initial_page))
    (Settle 0 (Responded 200 payload_empty_answer))
  = Some (page_after browser session_empty_answer)
  /\ answer (state (page_after browser session_empty_answer)) = VString (str "")
  /\ synth (page_after browser session_empty_answer) = []
  /\ answer (state (page_after browser_mute session_answer)) = VString (str "Room 12")
  /\ synth (page_after browser_mute session_answer) = [].
Proof. repeat split; reflexivity. Qed.

Lemma askQuestion_rejected_400_witness :
  str "Rate limited." <> []
  /\ opt_prop payload_detail (str "detail") = VString (str "Rate limited.")
  /\ step browser engine
       (askQuestion (str "Where is the lab?") (page_after browser session_answer))
       (Settle 0 (Responded 400 payload_detail))
     = Some (page_after browser session_answer_then_error)
  /\ error (state (page_after browser session_answer_then_error))
     = VString (str "Rate limited.")
  /\ answer (state (page_after browser session_answer_then_error))
     = answer (state (page_after browser session_answer)).
Proof.
  assert (Hx : str "Rate limited." <> []) by (cbv; discriminate).
  assert (Hd : opt_prop payload_detail (str "detail") = VString (str "Rate limited."))
    by reflexivity.
  assert (Hs : step browser engine
                 (askQuestion (str "Where is the lab?") (page_after browser session_answer))
                 (Settle 0 (Responded 400 payload_detail))
               = Some (page_after browser session_answer_then_error))
    by (vm_compute; reflexivity).
  split; [exact Hx|]. split; [exact Hd|]. split; [exact Hs|].
  exact (askQuestion_rejected_400 browser engine (str "Where is the lab?")
           (page_after browser session_answer) 0%nat payload_detail
           (str "Rate limited.") (page_after browser session_answer_then_error)
           Hx Hd Hs).
Defined.

Lemma startListening_unsupported_witness :
  createSpeechRecognition browser_deaf = None
  /\ reachable browser_deaf engine (page_after browser_deaf session_start_unsupported)
  /\ listening (state (page_after browser_deaf session_start_unsupported)) = false
  /\ error (state (page_after browser_deaf session_start_unsupported))
     = VString (str "Speech recognition is not supported in this browser.").
Proof.
  split; [reflexivity|]. split; [apply page_after_reachable|].
  destruct (startListening_unsupported browser_deaf engine
              (page_after browser_deaf [Mounted])) as (_ & Herr & Hl & _).
  - reflexivity.
  - apply page_after_reachable.
  - split; [exact Hl | exact Herr].
Defined.

(* ===================================================================== *)
(** ** [String.prototype.trim]                                             *)
(* ===================================================================== *)

Lemma trim_start_idempotent s : trim_start (trim_start s) = trim_start s.
Proof.
  induction s as [|c s IH]; [reflexivity|].
  cbn. destruct (is_space c) eqn:E; [exact IH|].
  cbn. rewrite E. reflexivity.
Qed.

Lemma trim_start_blank s :
  trim_start s = [] <-> forallb is_space s = true.
Proof.
  induction s as [|c s IH]; cbn; [tauto|].
  destruct (is_space c); cbn; [exact IH|]. split; discriminate.
Qed.

Lemma trim_start_head s c t :
  trim_start s = c :: t -> is_space c = false.
Proof.
  induction s as [|a s IH]; cbn; [discriminate|].
  destruct (is_space a) eqn:E; [exact IH|].
  intros H. injection H as <- _. exact E.
Qed.

(** A string that ends with a code unit that is not white space keeps that
    end under [trim_start]. *)
Lemma trim_start_snoc l c :
  is_space c = false -> exists x, trim_start (l ++ [c]) = x ++ [c].
Proof.
  intros Hc. induction l as [|a l IH]; cbn.
  - rewrite Hc. exists []. reflexivity.
  - destruct (is_space a); [exact IH|]. exists (a :: l). reflexivity.
Qed.

Lemma forallb_rev {A} (f : A -> bool) l : forallb f (rev l) = forallb f l.
Proof.
  induction l as [|a l IH]; [reflexivity|].
  cbn. rewrite forallb_app, IH. cbn. rewrite andb_true_r. apply andb_comm.
Qed.

Lemma trim_end_fixed e :
  trim_start (rev e) = rev e -> trim_end e = e.
Proof. intros H. unfold trim_end. rewrite H. apply rev_involutive. Qed.

(** [trim] strips both ends: the result neither starts nor ends with white
    space. *)
Lemma trim_ends s :
  trim_start (trim s) = trim s /\ trim_end (trim s) = trim s.
Proof.
  unfold trim. destruct (trim_start s) as [|c t] eqn:E; [split; reflexivity|].
  pose proof (trim_start_head s c t E) as Hc.
  assert (Hfix : trim_start (rev (trim_end (c :: t))) = rev (trim_end (c :: t))).
  { unfold trim_end. rewrite rev_involutive. apply trim_start_idempotent. }
  split; [|apply trim_end_fixed; exact Hfix].
  unfold trim_end. cbn [rev].
  destruct (trim_start_snoc (rev t) c Hc) as [x ->].
  rewrite rev_app_distr. cbn. rewrite Hc. reflexivity.
Qed.

(** Trimming twice is trimming once. *)
Lemma trim_idempotent s : trim (trim s) = trim s.
Proof.
  destruct (trim_ends s) as [H1 H2].
  unfold trim at 1. rewrite H1. exact H2.
Qed.

(** A string trims to the empty string exactly when it consists of white
    space only. *)
Lemma trim_blank s : trim s = [] <-> forallb is_space s = true.
Proof.
  rewrite <- trim_start_blank. unfold trim, trim_end. split.
  - intros H. apply (f_equal (@rev N)) in H. rewrite rev_involutive in H. cbn in H.
    apply trim_start_blank in H. rewrite forallb_rev in H.
    destruct (trim_start s) as [|c t] eqn:E; [reflexivity|].
    pose proof (trim_start_head s c t E) as Hc.
    cbn in H. rewrite Hc in H. discriminate.
  - intros ->. reflexivity.
Qed.

(* ===================================================================== *)
(** ** Further properties of the proxy route                              *)
(* ===================================================================== *)

(** What [NextResponse.json] returns, when it returns. *)
Lemma exec_NextResponse_json_inv data st log r log' :
  exec (NextResponse_json data st) log = (inr r, log') ->
  r = {| status := st; json := JSON_stringify data |}
  /\ (200 <= st <= 599)%Z /\ null_body_status st = false /\ log' = log.
Proof.
  unfold NextResponse_json.
  destruct (JSON_stringify data); [|discriminate].
  destruct ((200 <=? st)%Z && (st <=? 599)%Z) eqn:E; cbn [negb]; [|discriminate].
  destruct (null_body_status st); [discriminate|].
  intros H. injection H as <- <-. apply andb_prop in E as [E1 E2].
  apply Z.leb_le in E1, E2. auto.
Qed.

(** Every response the [try] block can return, with the calls made. *)
Lemma exec_POST_validated_inv env backend question log r log' :
  exec (POST_validated env backend question) log = (inr r, log') ->
  (truthy question = false
   /\ r = {| status := 400; json := JSON_stringify (detail "Question is required.") |}
   /\ log' = log)
  \/ (truthy question = true
      /\ log' = log ++ [query_request (backendConfig env) question]
      /\ exists resp,
           backend (query_request (backendConfig env) question) = Some resp
           /\ ((Proxy.ok resp = true
                /\ r = {| status := 200;
                          json := JSON_stringify
                                    (match backend_json resp with
                                     | Some payload => payload
                                     | None => detail "Invalid backend response."
                                     end) |})
               \/ (Proxy.ok resp = false
                   /\ (200 <= backend_status resp <= 599)%Z
                   /\ null_body_status (backend_status resp) = false
                   /\ r = {| status := backend_status resp;
                             json := JSON_stringify
                               (VObject
                                  [(str "detail",
                                    or (opt_prop
                                          (match backend_json resp with
                                           | Some payload => payload
                                           | None => detail "Invalid backend response."
                                           end) (str "detail"))
                                       (VString (str "Backend request failed.")))]) |}))).
Proof.
  unfold POST_validated. destruct (truthy question) eqn:T; cbn [negb].
  - rewrite exec_bind, exec_await_fetch.
    destruct (backend _) as [resp|] eqn:B; [|discriminate].
    rewrite exec_bind, exec_catch. unfold await_response_json.
    intros H. right. split; [reflexivity|].
    assert (exec (if negb (Proxy.ok resp)
                  then NextResponse_json
                         (VObject
                            [(str "detail",
                              or (opt_prop
                                    (match backend_json resp with
                                     | Some payload => payload
                                     | None => detail "Invalid backend response."
                                     end) (str "detail"))
                                 (VString (str "Backend request failed.")))])
                         (backend_status resp)
                  else NextResponse_json
                         (match backend_json resp with
                          | Some payload => payload
                          | None => detail "Invalid backend response."
                          end) 200)
                 (log ++ [query_request (backendConfig env) question])
            = (inr r, log')) as H'.
    { destruct (backend_json resp); exact H. }
    clear H. destruct (Proxy.ok resp) eqn:O; cbn [negb] in H'.
    + apply exec_NextResponse_json_inv in H' as (-> & _ & _ & ->).
      split; [reflexivity|]. exists resp. split; [reflexivity|].
      left. split; [exact O | reflexivity].
    + apply exec_NextResponse_json_inv in H' as (-> & Hr & Hn & ->).
      split; [reflexivity|]. exists resp. split; [reflexivity|].
      right. split; [exact O|]. split; [exact Hr|]. split; [exact Hn | reflexivity].
  - intros H. injection H as <- <-. left. auto.
Qed.

(** The [try] block up to line 27: it throws on a body that is not JSON
    and on a truthy [question] that is not a string, and goes on with the
    trimmed question otherwise. *)
Lemma exec_POST_try_cases env backend request log :
  (exists e, exec (POST_try env backend request) log = (inl e, log))
  \/ (exists q, exec (POST_try env backend request) log
                = exec (POST_validated env backend (VString (trim q))) log).
Proof.
  unfold POST_try, await_request_json. rewrite exec_bind.
  destruct (request_json request) as [b|]; cbn [await].
  - rewrite exec_ret, exec_bind.
    destruct (or (opt_prop b (str "question")) (VString (str ""))) as [| |x|x|q|x|x];
      cbn [call_trim]; try (left; eexists; reflexivity).
    right. exists q. rewrite exec_ret. reflexivity.
  - left. eexists. reflexivity.
Qed.

(** X1. [POST] never throws: on every request, environment and backend it
    returns a response, whose status is one a response with a body can
    have (200..599 and none of 204, 205, 304). *)
Theorem POST_always_responds env backend request :
  exists r,
    fst (Proxy.run (POST env backend request)) = inr r
    /\ (200 <= status r <= 599)%Z
    /\ null_body_status (status r) = false.
Proof.
  unfold Proxy.run, POST. rewrite exec_catch.
  destruct (exec (POST_try env backend request) []) as [[e|r] log] eqn:E.
  - eexists. split; [reflexivity|]. cbn. split; [lia | reflexivity].
  - exists r. split; [reflexivity|].
    destruct (exec_POST_try_cases env backend request []) as [[e E']|[q E']];
      rewrite E' in E; [discriminate|].
    apply exec_POST_validated_inv in E
      as [(_ & -> & _)|(_ & _ & resp & _ & [(_ & ->)|(_ & Hr & Hn & ->)])]; cbn.
    + split; [lia | reflexivity].
    + split; [lia | reflexivity].
    + split; assumption.
Qed.

(** X2. [POST] calls the backend at most once per request, and a call it
    makes is the [fetch] of lines 36-41 for a non-empty trimmed question. *)
Theorem POST_at_most_one_call env backend request :
  snd (Proxy.run (POST env backend request)) = []
  \/ exists q,
       q <> [] /\ trim q = q
       /\ snd (Proxy.run (POST env backend request))
          = [query_request (backendConfig env) (VString q)].
Proof.
  rewrite POST_log.
  destruct (exec_POST_try_cases env backend request []) as [[e E]|[q E]]; rewrite E.
  - left. reflexivity.
  - destruct (trim q) as [|c t] eqn:T.
    + left. reflexivity.
    + right. exists (c :: t). split; [discriminate|]. split.
      * rewrite <- T. apply trim_idempotent.
      * apply exec_POST_validated_log. discriminate.
Qed.

(** The JSON text of an object with one property that has a JSON text. *)
Lemma JSON_stringify_member k d j :
  JSON_stringify d = Some j ->
  JSON_stringify (VObject [(k, d)]) = Some (JObject [(k, j)]).
Proof.
  intros H.
  change (JSON_stringify (VObject [(k, d)]))
    with (Some (JObject (match JSON_stringify d with
                         | Some j => [(k, j)] | None => [] end ++ []))).
  rewrite H. reflexivity.
Qed.

(** A truthy value has a JSON text, which is [null] only for an infinity. *)
Lemma truthy_has_JSON d :
  truthy d = true ->
  exists j, JSON_stringify d = Some j
            /\ (j = JNull -> exists s, d = VNumber (S754_infinity s)).
Proof.
  destruct d as [| |b|x|s|items|props]; try discriminate; intros T;
    try (eexists; split; [reflexivity | discriminate]).
  destruct x as [sg|sg| |sg m e]; try discriminate T;
    try (eexists; split; [reflexivity | discriminate]).
  eexists. split; [reflexivity|]. intros _. exists sg. reflexivity.
Qed.



(** X4. A request whose body is not JSON is answered 500 with the generic
    detail, and the backend is not called. *)
Theorem POST_malformed_body env backend :
  Proxy.run (POST env backend {| request_json := None |})
  = (inr {| status := 500;
            json := JSON_stringify (detail "Failed to process request.") |},
     []).
Proof. reflexivity. Qed.

(** X5. A request whose [question] is truthy but not a string (a number,
    [true], an array, an object) is answered 500 with the generic detail,
    not 400: calling [trim] on it throws. The backend is not called. *)
Theorem POST_non_string_question env backend b :
  truthy (opt_prop b (str "question")) = true ->
  (forall s, opt_prop b (str "question") <> VString s) ->
  Proxy.run (POST env backend {| request_json := Some b |})
  = (inr {| status := 500;
            json := JSON_stringify (detail "Failed to process request.") |},
     []).
Proof.
  intros Ht Hs. unfold Proxy.run, POST, POST_try, await_request_json.
  cbn [request_json await]. rewrite exec_catch, exec_bind, exec_ret, exec_bind.
  unfold or. rewrite Ht.
  destruct (opt_prop b (str "question")) as [| |x|x|s|x|x]; try reflexivity.
  destruct (Hs s). reflexivity.
Qed.

(** X6. A request without a usable [question] (the key is missing, its
    value is [null], [false], [0] or the empty string, or the body is not an
    object at all) is answered 400 "Question is required.", and the backend
    is not called. *)
Theorem POST_missing_question env backend b :
  truthy (opt_prop b (str "question")) = false ->
  Proxy.run (POST env backend {| request_json := Some b |})
  = (inr {| status := 400;
            json := JSON_stringify (detail "Question is required.") |},
     []).
Proof.
  intros Ht. unfold Proxy.run, POST, POST_try, await_request_json.
  cbn [request_json await]. rewrite exec_catch, exec_bind, exec_ret, exec_bind.
  unfold or. rewrite Ht. reflexivity.
Qed.

(** X7. When the [fetch] to the backend is rejected (the backend cannot be
    reached), the route answers 500 with the generic detail, having made
    that one call and no other: there is no retry. *)
Theorem POST_backend_unreachable env backend b q :
  opt_prop b (str "question") = VString q ->
  trim q <> [] ->
  backend (query_request (backendConfig env) (VString (trim q))) = None ->
  Proxy.run (POST env backend {| request_json := Some b |})
  = (inr {| status := 500;
            json := JSON_stringify (detail "Failed to process request.") |},
     [query_request (backendConfig env) (VString (trim q))]).
Proof.
  intros Hq Ht Hb. unfold Proxy.run, POST.
  rewrite exec_catch, (exec_POST_try _ _ _ _ _ Hq).
  unfold POST_validated. rewrite (nonempty_truthy _ Ht). cbn [negb].
  rewrite exec_bind, exec_await_fetch, Hb. reflexivity.
Qed.

(** X8. When the backend answers with a JSON payload and a status that is
    not 2xx (300..599, 304 apart), the route relays that status with a body
    holding only [detail]: the JSON text of the payload's [detail] when it
    is truthy (a non-empty string is relayed as it is, a number that
    parsed to an infinity as [null]), "Backend request failed." otherwise.
    Nothing else of the payload is relayed. *)
Theorem POST_relays_backend_error env backend b q resp payload :
  opt_prop b (str "question") = VString q ->
  trim q <> [] ->
  backend (query_request (backendConfig env) (VString (trim q))) = Some resp ->
  Proxy.ok resp = false ->
  (200 <= backend_status resp <= 599)%Z ->
  null_body_status (backend_status resp) = false ->
  backend_json resp = Some payload ->
  exists j,
    fst (Proxy.run (POST env backend {| request_json := Some b |}))
    = inr {| status := backend_status resp;
             json := Some (JObject [(str "detail", j)]) |}
    /\ JSON_stringify
         (if truthy (opt_prop payload (str "detail"))
          then opt_prop payload (str "detail")
          else VString (str "Backend request failed."))
       = Some j
    /\ (forall X, opt_prop payload (str "detail") = VString X -> X <> [] ->
        j = JString X)
    /\ (truthy (opt_prop payload (str "detail")) = false ->
        j = JString (str "Backend request failed.")).
Proof.
  intros Hq Ht Hb Hok Hr Hn Hp.
  set (d := if truthy (opt_prop payload (str "detail"))
            then opt_prop payload (str "detail")
            else VString (str "Backend request failed.")).
  assert (Hd : truthy d = true).
  { subst d. destruct (truthy (opt_prop _ _)) eqn:T; [exact T | reflexivity]. }
  destruct (truthy_has_JSON d Hd) as (j & Hj & _).
  exists j. split; [|split; [exact Hj|split]].
  - unfold Proxy.run, POST.
    rewrite exec_catch, (exec_POST_try _ _ _ _ _ Hq).
    unfold POST_validated. rewrite (nonempty_truthy _ Ht). cbn [negb].
    rewrite exec_bind, exec_await_fetch, Hb, exec_bind, exec_catch.
    unfold await_response_json. rewrite Hp. cbn [await].
    rewrite exec_ret, Hok. cbn [negb].
    rewrite (exec_NextResponse_json_ok _ _ _ _ Hr Hn
               (JSON_stringify_member (str "detail") d j Hj)).
    reflexivity.
  - intros X HX Hne. subst d. rewrite HX, (nonempty_truthy _ Hne) in Hj.
    injection Hj as <-. reflexivity.
  - intros Hf. subst d. rewrite Hf in Hj. injection Hj as <-. reflexivity.
Qed.

(* ===================================================================== *)
(** ** Further properties of the voice UI                                 *)
(* ===================================================================== *)


Section UiMore.
Variable window : option Window.
Variable engine : Engine.

(** What [speak] sends to the synthesizer. *)
Lemma speak_synth text p :
  synth (fst (speak window engine text p)) = synth p
  \/ synth (fst (speak window engine text p)) = synth p ++ [Cancel]
  \/ exists s, synth (fst (speak window engine text p))
               = synth p ++ [Cancel; Speak s (str "en-US") 1 1].
Proof.
  unfold speak. destruct (negb (synthesis_available window)); [left; reflexivity|].
  destruct (ToString engine text) as [m|s]; cbn.
  - right. left. reflexivity.
  - right. right. exists s. rewrite <- app_assoc. reflexivity.
Qed.

Lemma speak_rest text p :
  in_flight (fst (speak window engine text p)) = in_flight p
  /\ recognizer (fst (speak window engine text p)) = recognizer p.
Proof.
  unfold speak. destruct (negb (synthesis_available window)); [split; reflexivity|].
  destruct (ToString engine text); split; reflexivity.
Qed.

(** The [try] block leaves everything but [answer], [route] and the
    synthesizer alone. *)
Lemma askQuestion_try_frame o p :
  let p1 := fst (askQuestion_try window engine o p) in
  question (state p1) = question (state p)
  /\ listening (state p1) = listening (state p)
  /\ loading (state p1) = loading (state p)
  /\ error (state p1) = error (state p)
  /\ mounted (state p1) = mounted (state p)
  /\ speechSupported (state p1) = speechSupported (state p)
  /\ recognitionRef (state p1) = recognitionRef (state p)
  /\ in_flight p1 = in_flight p
  /\ recognizer p1 = recognizer p.
Proof.
  cbv zeta. unfold askQuestion_try. destruct o as [m|st m|st data];
    [cbn; auto 10 | cbn; auto 10 |].
  destruct (negb (Ui.ok st)).
  - destruct (ToString engine _); cbn; auto 10.
  - destruct (prop data (str "answer")) as [a|]; [|cbn; auto 10].
    destruct (truthy a); [|cbn; auto 10].
    set (p2 := with_state _ (with_state _ p)).
    rewrite (speak_state window engine a p2).
    destruct (speak_rest a p2) as [-> ->].
    cbn. auto 10.
Qed.




(** X10. When the fetch is rejected or the response body is not JSON, the
    error shown is the rejection's message, or "Something went wrong." when
    that message is empty. *)
Theorem rejection_message p i o m p' :
  step window engine p (Settle i o) = Some p' ->
  (o = FetchRejected m \/ exists st, o = JsonRejected st m) ->
  error (state p')
  = VString (if is_empty m then str "Something went wrong." else m).
Proof.
  intros Hstep Ho. apply step_Settle in Hstep. subst p'.
  destruct Ho as [->|[st ->]]; destruct m; reflexivity.
Qed.

(** X11. A response that is not 2xx and has no usable [detail] (missing,
    [null], empty, or the body is not an object) shows "Request failed.". *)
Theorem non_ok_without_detail p i st data p' :
  step window engine p (Settle i (Responded st data)) = Some p' ->
  Ui.ok st = false ->
  truthy (opt_prop data (str "detail")) = false ->
  error (state p') = VString (str "Request failed.")
  /\ loading (state p') = false
  /\ answer (state p') = answer (state p).
Proof.
  intros Hstep Ho Hd. apply step_Settle in Hstep. subst p'.
  unfold askQuestion_settled, askQuestion_try, or. rewrite Ho, Hd. cbn.
  auto.
Qed.

(** X12. A 2xx response whose body is not [null] but has no truthy
    [answer] is taken as a success with nothing to say: [answer] becomes
    the empty string (an answer shown before disappears), [route] is taken
    from the body, [error] and the synthesizer are left alone, and no error
    is raised. *)
Theorem success_without_answer p i st data p' :
  step window engine p (Settle i (Responded st data)) = Some p' ->
  Ui.ok st = true ->
  data <> VNull -> data <> VUndefined ->
  truthy (opt_prop data (str "answer")) = false ->
  answer (state p') = VString (str "")
  /\ route (state p') = or (opt_prop data (str "route")) (VString (str ""))
  /\ error (state p') = error (state p)
  /\ loading (state p') = false
  /\ synth p' = synth p
  /\ existsb shows_answer (render_results (state p')) = false.
Proof.
  intros Hstep Ho Hn Hu Ha. apply step_Settle in Hstep. subst p'.
  destruct (render_results_spec
              (state (askQuestion_settled window engine (Responded st data)
                        (with_in_flight (remove_nth i (in_flight p)) p))))
    as (_ & _ & Hr).
  rewrite Hr. clear Hr.
  unfold askQuestion_settled, askQuestion_try. rewrite Ho. cbn [negb].
  assert (Hp : prop data (str "answer") = Some (opt_prop data (str "answer"))).
  { destruct data; try reflexivity; congruence. }
  rewrite Hp. cbv beta iota zeta. rewrite Ha.
  assert (Hor : or (opt_prop data (str "answer")) (VString (str "")) = VString (str ""))
    by (unfold or; rewrite Ha; reflexivity).
  rewrite Hor. cbn. auto 10.
Qed.

(** X13. A call of [askQuestion] with a non-blank text issues exactly one
    fetch, after those still in flight: a POST to [/api/ask] with a JSON
    content type whose body is [{question: <trimmed text>}]; it leaves
    [question], [answer], [route], [listening], the synthesizer and the
    recognizer as they were. *)
Theorem askQuestion_submits text p :
  trim text <> [] ->
  in_flight (askQuestion text p)
  = in_flight p ++
      [{| ask_url := str "/api/ask";
          ask_method := str "POST";
          ask_headers := [(str "Content-Type", str "application/json")];
          ask_body := JSON_stringify
                        (VObject [(str "question", VString (trim text))]) |}]
  /\ question (state (askQuestion text p)) = question (state p)
  /\ answer (state (askQuestion text p)) = answer (state p)
  /\ route (state (askQuestion text p)) = route (state p)
  /\ listening (state (askQuestion text p)) = listening (state p)
  /\ synth (askQuestion text p) = synth p
  /\ recognizer (askQuestion text p) = recognizer p.
Proof.
  intros Ht. unfold askQuestion. destruct (trim text); [congruence|].
  cbn. auto 10.
Qed.

(** X14. A text of white space only (or empty) is not submitted: the call
    changes nothing and no fetch is issued. *)
Theorem askQuestion_whitespace text p :
  forallb is_space text = true -> askQuestion text p = p.
Proof.
  intros H. apply askQuestion_blank. apply trim_blank. exact H.
Qed.

(** X15. The "Ask Typed Question" button can be clicked only when a click
    really submits: no request is loading, and the click puts in flight a
    request for the trimmed typed question and sets [loading]. *)
Theorem ClickAsk_submits p p' :
  step window engine p ClickAsk = Some p' ->
  loading (state p) = false
  /\ trim (question (state p)) <> []
  /\ loading (state p') = true
  /\ error (state p') = VString (str "")
  /\ exists req,
       in_flight p' = in_flight p ++ [req]
       /\ ask_body req
          = JSON_stringify
              (VObject [(str "question", VString (trim (question (state p))))]).
Proof.
  cbn. unfold ask_clickable.
  destruct (loading (state p)) eqn:L; cbn; [discriminate|].
  destruct (trim (question (state p))) as [|c t] eqn:T; cbn; [discriminate|].
  intros H. injection H as <-.
  split; [reflexivity|]. split; [discriminate|].
  unfold askQuestion. rewrite T. cbn.
  split; [reflexivity|]. split; [reflexivity|].
  eexists. split; reflexivity.
Qed.


Lemma askQuestion_frame text p :
  synth (askQuestion text p) = synth p
  /\ recognizer (askQuestion text p) = recognizer p
  /\ listening (state (askQuestion text p)) = listening (state p)
  /\ recognitionRef (state (askQuestion text p)) = recognitionRef (state p)
  /\ mounted (state (askQuestion text p)) = mounted (state p)
  /\ speechSupported (state (askQuestion text p)) = speechSupported (state p)
  /\ answer (state (askQuestion text p)) = answer (state p)
  /\ route (state (askQuestion text p)) = route (state p).
Proof.
  unfold askQuestion. destruct (is_empty (trim text)); cbn; auto 10.
Qed.

Lemma askQuestion_settled_frame o p :
  let p' := askQuestion_settled window engine o p in
  in_flight p' = in_flight p
  /\ recognizer p' = recognizer p
  /\ question (state p') = question (state p)
  /\ listening (state p') = listening (state p)
  /\ recognitionRef (state p') = recognitionRef (state p)
  /\ mounted (state p') = mounted (state p)
  /\ speechSupported (state p') = speechSupported (state p).
Proof.
  cbv zeta. unfold askQuestion_settled.
  pose proof (askQuestion_try_frame o p) as H. cbv zeta in H.
  destruct (askQuestion_try window engine o p) as [p1 t]. cbn [fst] in H.
  destruct H as (Hq & Hli & _ & _ & Hm & Hs & Hr & Hf & Hrc).
  destruct t; cbn; auto 10.
Qed.

Lemma askQuestion_settled_synth o p :
  synth (askQuestion_settled window engine o p) = synth p
  \/ synth (askQuestion_settled window engine o p) = synth p ++ [Cancel]
  \/ exists s, synth (askQuestion_settled window engine o p)
               = synth p ++ [Cancel; Speak s (str "en-US") 1 1].
Proof.
  assert (H : synth (fst (askQuestion_try window engine o p)) = synth p
              \/ synth (fst (askQuestion_try window engine o p)) = synth p ++ [Cancel]
              \/ exists s, synth (fst (askQuestion_try window engine o p))
                           = synth p ++ [Cancel; Speak s (str "en-US") 1 1]).
  { unfold askQuestion_try. destruct o as [m|st m|st data]; [left; reflexivity..|].
    destruct (negb (Ui.ok st)).
    - destruct (ToString engine _); left; reflexivity.
    - destruct (prop data (str "answer")) as [a|]; [|left; reflexivity].
      destruct (truthy a); [|left; reflexivity].
      set (p2 := with_state _ (with_state _ p)).
      exact (speak_synth a p2). }
  unfold askQuestion_settled.
  destruct (askQuestion_try window engine o p) as [p1 t]. cbn [fst] in H.
  destruct t; exact H.
Qed.

(** How one event changes the calls made to the synthesizer. *)
Lemma step_synth p ev p' :
  step window engine p ev = Some p' ->
  synth p' = synth p
  \/ synth p' = synth p ++ [Cancel]
  \/ exists s, synth p' = synth p ++ [Cancel; Speak s (str "en-US") 1 1].
Proof.
  destruct ev as [|text| | | | |rev|i o]; intros Hstep;
    [| | | | | | |apply step_Settle in Hstep; subst p';
                  exact (askQuestion_settled_synth o _)];
    cbn in Hstep.
  - injection Hstep as <-. left. reflexivity.
  - injection Hstep as <-. left. reflexivity.
  - destruct (start_clickable (state p)); [|discriminate].
    injection Hstep as <-. left. unfold onStartListening.
    destruct (createSpeechRecognition window); reflexivity.
  - destruct (stop_clickable (state p)); [|discriminate].
    injection Hstep as <-. left. unfold onStopListening.
    destruct (recognitionRef (state p)); reflexivity.
  - destruct (ask_clickable (state p)); [|discriminate].
    injection Hstep as <-. left. apply askQuestion_frame.
  - destruct (replay_clickable (state p)); [|discriminate].
    injection Hstep as <-. apply speak_synth.
  - destruct (has_started p); [|discriminate].
    injection Hstep as <-. left. destruct rev as [|code| |t]; try reflexivity.
    cbn. rewrite (proj1 (askQuestion_frame _ _)). reflexivity.
Qed.

(** X16. The synthesizer is only ever driven in rounds of one [cancel()]
    followed by at most one [speak()] of an utterance with language en-US,
    rate 1 and pitch 1: playback in progress is always cancelled before a
    new utterance is spoken. *)
Theorem synth_cancelled_before_speak p :
  reachable window engine p ->
  exists rounds,
    synth p = List.concat rounds
    /\ Forall (fun round =>
                 round = [Cancel]
                 \/ exists s, round = [Cancel; Speak s (str "en-US") 1 1])
              rounds.
Proof.
  induction 1 as [|p ev p' Hp (rounds & Hc & Hf) Hstep].
  - exists []. split; [reflexivity | constructor].
  - destruct (step_synth p ev p' Hstep) as [->|[->|[s ->]]].
    + exists rounds. split; assumption.
    + exists (rounds ++ [[Cancel]]). split.
      * rewrite concat_app, Hc. cbn. reflexivity.
      * apply Forall_app. split; [exact Hf|]. constructor; [|constructor].
        left. reflexivity.
    + exists (rounds ++ [[Cancel; Speak s (str "en-US") 1 1]]). split.
      * rewrite concat_app, Hc. cbn. reflexivity.
      * apply Forall_app. split; [exact Hf|]. constructor; [|constructor].
        right. exists s. reflexivity.
Qed.

(** X17. In a browser without speech synthesis the synthesizer is never
    called, whatever happens on the page. *)
Theorem synth_silent_without_capability p :
  synthesis_available window = false ->
  reachable window engine p ->
  synth p = [].
Proof.
  intros Hs. induction 1 as [|p ev p' Hp IH Hstep]; [reflexivity|].
  assert (Hspeak : forall text q, synth (fst (speak window engine text q)) = synth q).
  { intros text q. unfold speak. rewrite Hs. reflexivity. }
  destruct ev as [|text| | | | |rev|i o];
    [| | | | | | |apply step_Settle in Hstep; subst p'];
    try cbn in Hstep.
  - injection Hstep as <-. exact IH.
  - injection Hstep as <-. exact IH.
  - destruct (start_clickable (state p)); [|discriminate].
    injection Hstep as <-. unfold onStartListening.
    destruct (createSpeechRecognition window); exact IH.
  - destruct (stop_clickable (state p)); [|discriminate].
    injection Hstep as <-. unfold onStopListening.
    destruct (recognitionRef (state p)); exact IH.
  - destruct (ask_clickable (state p)); [|discriminate].
    injection Hstep as <-. rewrite (proj1 (askQuestion_frame _ _)). exact IH.
  - destruct (replay_clickable (state p)); [|discriminate].
    injection Hstep as <-. rewrite Hspeak. exact IH.
  - destruct (has_started p); [|discriminate].
    injection Hstep as <-. destruct rev as [|code| |t]; try exact IH.
    cbn. rewrite (proj1 (askQuestion_frame _ _)). exact IH.
  - unfold askQuestion_settled, askQuestion_try.
    destruct o as [m|st m|st data]; try exact IH.
    destruct (negb (Ui.ok st)).
    + destruct (ToString engine _); exact IH.
    + destruct (prop data (str "answer")) as [a|]; [|exact IH].
      destruct (truthy a); [|exact IH].
      set (p2 := with_state _ (with_state _ _)).
      pose proof (Hspeak a p2) as E.
      destruct (speak window engine a p2) as [p3 t]. cbn [fst] in E.
      destruct t; cbn; rewrite E; exact IH.
Qed.


(** How one event changes the calls made to recognizers. *)
Lemma step_recognizer p ev p' :
  step window engine p ev = Some p' ->
  (recognizer p' = recognizer p
   /\ recognitionRef (state p') = recognitionRef (state p))
  \/ (recognizer p' = recognizer p ++ [Stop]
      /\ recognitionRef (state p') = recognitionRef (state p)
      /\ recognitionRef (state p) <> None)
  \/ (exists r, createSpeechRecognition window = Some r
                /\ recognizer p' = recognizer p ++ [Start r]
                /\ recognitionRef (state p') = Some r).
Proof.
  destruct ev as [|text| | | | |rev|i o]; intros Hstep;
    [| | | | | | |apply step_Settle in Hstep; subst p'];
    try cbn in Hstep.
  - injection Hstep as <-. left. split; reflexivity.
  - injection Hstep as <-. left. split; reflexivity.
  - destruct (start_clickable (state p)); [|discriminate].
    injection Hstep as <-. unfold onStartListening.
    destruct (createSpeechRecognition window) as [r|].
    + right. right. exists r. cbn. auto.
    + left. split; reflexivity.
  - destruct (stop_clickable (state p)); [|discriminate].
    injection Hstep as <-. unfold onStopListening.
    destruct (recognitionRef (state p)) as [r|] eqn:E.
    + right. left. cbn. rewrite E. repeat split. discriminate.
    + left. cbn. rewrite E. split; reflexivity.
  - destruct (ask_clickable (state p)); [|discriminate].
    injection Hstep as <-. left.
    destruct (askQuestion_frame (question (state p)) p) as (_ & -> & _ & -> & _).
    split; reflexivity.
  - destruct (replay_clickable (state p)); [|discriminate].
    injection Hstep as <-. left. rewrite speak_state.
    destruct (speak_rest (answer (state p)) p) as [_ ->]. split; reflexivity.
  - destruct (has_started p); [|discriminate].
    injection Hstep as <-. left.
    destruct rev as [|code| |t]; try (split; reflexivity).
    cbn [recognition_handler].
    destruct (askQuestion_frame (or_str t (str ""))
                (with_state (setQuestion (or_str t (str ""))) p))
      as (_ & -> & _ & -> & _).
    split; reflexivity.
  - left.
    pose proof (askQuestion_settled_frame o
                  (with_in_flight (remove_nth i (in_flight p)) p)) as H.
    cbv zeta in H. destruct H as (_ & -> & _ & _ & -> & _). split; reflexivity.
Qed.

(** The recognizers started are the ones [createSpeechRecognition]
    configures; the ref holds a recognizer exactly when one was started;
    and [listening] is set only after one was started. *)
Lemma recognizer_invariant p :
  reachable window engine p ->
  Forall (fun c =>
            c = Stop
            \/ c = Start {| lang := str "en-US"; interimResults := false;
                            maxAlternatives := 1 |})
         (recognizer p)
  /\ (has_started p = true <-> recognitionRef (state p) <> None)
  /\ (listening (state p) = true -> recognitionRef (state p) <> None).
Proof.
  induction 1 as [|p ev p' Hp (IHf & IHs & IHl) Hstep].
  - cbn. split; [constructor|].
    split; [split; [discriminate | intros H; congruence] | discriminate].
  - assert (Hcfg : forall r, createSpeechRecognition window = Some r ->
                     r = {| lang := str "en-US"; interimResults := false;
                            maxAlternatives := 1 |}).
    { unfold createSpeechRecognition. intros r. destruct window as [w|]; [|discriminate].
      destruct (negb _); [discriminate|]. congruence. }
    assert (Hlisten : listening (state p') = true ->
                      listening (state p) = true \/ has_started p = true).
    { destruct ev as [|text| | | | |rev|i o];
        [| | | | | | |apply step_Settle in Hstep; subst p'];
        try cbn in Hstep.
      - injection Hstep as <-. auto.
      - injection Hstep as <-. auto.
      - destruct (start_clickable (state p)); [|discriminate].
        injection Hstep as <-. rewrite onStartListening_listening. auto.
      - destruct (stop_clickable (state p)); [|discriminate].
        injection Hstep as <-. rewrite onStopListening_state. discriminate.
      - destruct (ask_clickable (state p)); [|discriminate].
        injection Hstep as <-.
        destruct (askQuestion_frame (question (state p)) p) as (_ & _ & -> & _). auto.
      - destruct (replay_clickable (state p)); [|discriminate].
        injection Hstep as <-. rewrite speak_state. auto.
      - destruct (has_started p); [|discriminate]. auto.
      - pose proof (askQuestion_settled_frame o
                      (with_in_flight (remove_nth i (in_flight p)) p)) as H.
        cbv zeta in H. destruct H as (_ & _ & _ & -> & _). auto. }
    destruct (step_recognizer p ev p' Hstep)
      as [(Hr & Href)|[(Hr & Href & Hsome)|(r & Hc & Hr & Href)]].
    + unfold has_started in *. rewrite Hr, Href.
      split; [exact IHf|]. split; [exact IHs|].
      intros L. destruct (Hlisten L) as [L'|S]; [exact (IHl L') | apply IHs; exact S].
    + unfold has_started in *. rewrite Hr, Href, existsb_app.
      split; [apply Forall_app; split; [exact IHf | constructor; [left; reflexivity | constructor]]|].
      split; [|intros _; exact Hsome].
      cbn. rewrite orb_false_r. exact IHs.
    + unfold has_started in *. rewrite Hr, Href, existsb_app.
      split.
      { apply Forall_app. split; [exact IHf|]. constructor; [|constructor].
        right. rewrite (Hcfg r Hc). reflexivity. }
      split; [|intros _; discriminate].
      cbn. rewrite orb_true_r. split; [discriminate | reflexivity].
Qed.

(** X18. Every recognizer the page starts is configured as
    [createSpeechRecognition] has it (language en-US, final results only,
    one alternative), and is started only in a browser that has a
    recognizer constructor. *)
Theorem started_recognizers_configured p r :
  reachable window engine p ->
  In (Start r) (recognizer p) ->
  lang r = str "en-US" /\ interimResults r = false /\ maxAlternatives r = 1%Z
  /\ createSpeechRecognition window <> None.
Proof.
  intros Hp Hin. destruct (recognizer_invariant p Hp) as (Hf & _ & _).
  rewrite Forall_forall in Hf. destruct (Hf _ Hin) as [H|H]; [discriminate|].
  injection H as ->. repeat split.
  intros Hn. destruct (unsupported_invariant window engine p Hn Hp) as [Hs _].
  unfold has_started in Hs.
  assert (existsb (fun c => match c with Start _ => true | Stop => false end)
            (recognizer p) = true) as Hs'.
  { apply existsb_exists. eexists. split; [exact Hin | reflexivity]. }
  congruence.
Qed.

(** X19. Clicking "Stop Listening" on a reachable page always calls [stop()]
    on the recognizer and sets [listening] to false; it touches nothing
    else: a request in flight stays in flight and [loading], [error] and
    [answer] are as before. *)
Theorem ClickStop_stops p p' :
  reachable window engine p ->
  step window engine p ClickStop = Some p' ->
  listening (state p') = false
  /\ recognizer p' = recognizer p ++ [Stop]
  /\ in_flight p' = in_flight p
  /\ loading (state p') = loading (state p)
  /\ error (state p') = error (state p)
  /\ answer (state p') = answer (state p).
Proof.
  intros Hp Hstep. destruct (recognizer_invariant p Hp) as (_ & _ & Hl).
  cbn in Hstep. unfold stop_clickable in Hstep.
  destruct (listening (state p)) eqn:L; [|discriminate].
  injection Hstep as <-. specialize (Hl eq_refl).
  unfold onStopListening. destruct (recognitionRef (state p)); [|congruence].
  cbn. auto 10.
Qed.

(** X20. Once the mount effect has run, the start button's label tells
    what a click will do: "Voice Not Supported" exactly when
    [createSpeechRecognition] returns [null], "Start Voice Question"
    otherwise. *)
Theorem start_label_matches_capability p :
  reachable window engine p ->
  mounted (state p) = true ->
  (createSpeechRecognition window = None
   /\ start_button_label (state p) = str "Voice Not Supported")
  \/ ((exists r, createSpeechRecognition window = Some r)
      /\ start_button_label (state p) = str "Start Voice Question").
Proof.
  intros Hp.
  assert (Hinv : mounted (state p) = true ->
                 speechSupported (state p)
                 = match createSpeechRecognition window with
                   | Some _ => true | None => false end).
  { induction Hp as [|p ev p' Hp IH Hstep]; [discriminate|].
    destruct ev as [|text| | | | |rev|i o];
      [| | | | | | |apply step_Settle in Hstep; subst p'];
      try cbn in Hstep.
    - injection Hstep as <-. intros _. cbn. unfold createSpeechRecognition.
      destruct window as [w|]; [|reflexivity].
      destruct (SpeechRecognition w || webkitSpeechRecognition w); reflexivity.
    - injection Hstep as <-. exact IH.
    - destruct (start_clickable (state p)); [|discriminate].
      injection Hstep as <-. unfold onStartListening.
      destruct (createSpeechRecognition window); exact IH.
    - destruct (stop_clickable (state p)); [|discriminate].
      injection Hstep as <-. rewrite onStopListening_state. exact IH.
    - destruct (ask_clickable (state p)); [|discriminate].
      injection Hstep as <-.
      destruct (askQuestion_frame (question (state p)) p)
        as (_ & _ & _ & _ & -> & -> & _). exact IH.
    - destruct (replay_clickable (state p)); [|discriminate].
      injection Hstep as <-. rewrite speak_state. exact IH.
    - destruct (has_started p); [|discriminate].
      injection Hstep as <-. destruct rev as [|code| |t]; try exact IH.
      cbn [recognition_handler].
      destruct (askQuestion_frame (or_str t (str ""))
                  (with_state (setQuestion (or_str t (str ""))) p))
        as (_ & _ & _ & _ & -> & -> & _). exact IH.
    - pose proof (askQuestion_settled_frame o
                    (with_in_flight (remove_nth i (in_flight p)) p)) as H.
      cbv zeta in H. destruct H as (_ & _ & _ & _ & _ & -> & ->). exact IH. }
  intros M. specialize (Hinv M). unfold start_button_label. rewrite M, Hinv.
  destruct (createSpeechRecognition window) as [r|].
  - right. split; [exists r; reflexivity | reflexivity].
  - left. split; reflexivity.
Qed.


(** X21. A recognition result puts its transcript in the question box and
    submits it at once: a non-blank transcript goes in flight trimmed and
    sets [loading]; a blank or missing transcript only replaces the
    question (by the empty string when missing). *)
Theorem voice_result_submits p t p' :
  step window engine p (Recognized (onresult t)) = Some p' ->
  question (state p') = or_str t (str "")
  /\ (trim (or_str t (str "")) = [] ->
      in_flight p' = in_flight p
      /\ loading (state p') = loading (state p)
      /\ error (state p') = error (state p))
  /\ (trim (or_str t (str "")) <> [] ->
      loading (state p') = true
      /\ exists req,
           in_flight p' = in_flight p ++ [req]
           /\ ask_body req
              = JSON_stringify
                  (VObject [(str "question", VString (trim (or_str t (str ""))))])).
Proof.
  intros H. cbn [step] in H. destruct (has_started p); [|discriminate].
  injection H as <-. cbn [recognition_handler].
  set (tr := or_str t (str "")). unfold askQuestion.
  destruct (trim tr) as [|c s]; cbn.
  - split; [reflexivity|]. split; [auto|congruence].
  - split; [reflexivity|]. split; [discriminate|].
    intros _. split; [reflexivity|]. eexists. split; reflexivity.
Qed.

(** X22. Only the settling of a request changes what the answer box
    shows: every other event (typing, clicks, recognizer events, mounting)
    leaves [answer] and [route] as they are. *)
Theorem answer_changes_only_on_settle p ev p' :
  step window engine p ev = Some p' ->
  (forall i o, ev <> Settle i o) ->
  answer (state p') = answer (state p) /\ route (state p') = route (state p).
Proof.
  intros Hstep Hev.
  destruct ev as [|text| | | | |rev|i o]; [| | | | | | |destruct (Hev i o); reflexivity];
    cbn in Hstep.
  - injection Hstep as <-. split; reflexivity.
  - injection Hstep as <-. split; reflexivity.
  - destruct (start_clickable (state p)); [|discriminate].
    injection Hstep as <-. unfold onStartListening.
    destruct (createSpeechRecognition window); split; reflexivity.
  - destruct (stop_clickable (state p)); [|discriminate].
    injection Hstep as <-. rewrite onStopListening_state. split; reflexivity.
  - destruct (ask_clickable (state p)); [|discriminate].
    injection Hstep as <-.
    destruct (askQuestion_frame (question (state p)) p)
      as (_ & _ & _ & _ & _ & _ & -> & ->). split; reflexivity.
  - destruct (replay_clickable (state p)); [|discriminate].
    injection Hstep as <-. rewrite speak_state. split; reflexivity.
  - destruct (has_started p); [|discriminate].
    injection Hstep as <-. destruct rev as [|code| |t]; try (split; reflexivity).
    cbn [recognition_handler].
    destruct (askQuestion_frame (or_str t (str ""))
                (with_state (setQuestion (or_str t (str ""))) p))
      as (_ & _ & _ & _ & _ & _ & -> & ->). split; reflexivity.
Qed.

Lemma Forall_remove_nth {A} (P : A -> Prop) i l :
  Forall P l -> Forall P (remove_nth i l).
Proof.
  intros H. revert i. induction H as [|x l Hx Hl IH]; intros [|i]; cbn.
  - constructor.
  - constructor.
  - exact Hl.
  - constructor; [exact Hx | apply IH].
Qed.

(** How [askQuestion] changes the requests in flight. *)
Lemma askQuestion_in_flight_cases text p :
  in_flight (askQuestion text p) = in_flight p
  \/ exists q,
       q <> [] /\ trim q = q
       /\ in_flight (askQuestion text p)
          = in_flight p ++
              [{| ask_url := str "/api/ask";
                  ask_method := str "POST";
                  ask_headers := [(str "Content-Type", str "application/json")];
                  ask_body := JSON_stringify (VObject [(str "question", VString q)]) |}].
Proof.
  unfold askQuestion. destruct (trim text) as [|c s] eqn:T; cbn.
  - left. reflexivity.
  - right. exists (c :: s). split; [discriminate|].
    split; [rewrite <- T; apply trim_idempotent | reflexivity].
Qed.

(** The requests in flight are all of the shape [askQuestion] gives them. *)
Lemma in_flight_invariant p :
  reachable window engine p ->
  Forall (fun req =>
            ask_url req = str "/api/ask"
            /\ ask_method req = str "POST"
            /\ ask_headers req = [(str "Content-Type", str "application/json")]
            /\ exists q,
                 q <> [] /\ trim q = q
                 /\ ask_body req
                    = JSON_stringify (VObject [(str "question", VString q)]))
         (in_flight p).
Proof.
  induction 1 as [|p ev p' Hp IH Hstep]; [constructor|].
  assert (Hask : forall text q0,
             in_flight q0 = in_flight p ->
             Forall (fun req =>
                       ask_url req = str "/api/ask"
                       /\ ask_method req = str "POST"
                       /\ ask_headers req = [(str "Content-Type", str "application/json")]
                       /\ exists q,
                            q <> [] /\ trim q = q
                            /\ ask_body req
                               = JSON_stringify (VObject [(str "question", VString q)]))
                    (in_flight (askQuestion text q0))).
  { intros text q0 E.
    destruct (askQuestion_in_flight_cases text q0) as [->|(q & Hq & Ht & ->)];
      rewrite E; [exact IH|].
    apply Forall_app. split; [exact IH|]. constructor; [|constructor].
    cbn. repeat split. exists q. auto. }
  destruct ev as [|text| | | | |rev|i o];
    [| | | | | | |apply step_Settle in Hstep; subst p'];
    try cbn in Hstep.
  - injection Hstep as <-. exact IH.
  - injection Hstep as <-. exact IH.
  - destruct (start_clickable (state p)); [|discriminate].
    injection Hstep as <-. unfold onStartListening.
    destruct (createSpeechRecognition window); exact IH.
  - destruct (stop_clickable (state p)); [|discriminate].
    injection Hstep as <-. unfold onStopListening.
    destruct (recognitionRef (state p)); exact IH.
  - destruct (ask_clickable (state p)); [|discriminate].
    injection Hstep as <-. apply Hask. reflexivity.
  - destruct (replay_clickable (state p)); [|discriminate].
    injection Hstep as <-.
    destruct (speak_rest (answer (state p)) p) as [-> _]. exact IH.
  - destruct (has_started p); [|discriminate].
    injection Hstep as <-. destruct rev as [|code| |t]; try exact IH.
    cbn [recognition_handler]. apply Hask. reflexivity.
  - pose proof (askQuestion_settled_frame o
                  (with_in_flight (remove_nth i (in_flight p)) p)) as H.
    cbv zeta in H. destruct H as (-> & _). cbn.
    apply Forall_remove_nth. exact IH.
Qed.

(** X23. Every request the page ever has in flight is a POST to [/api/ask]
    with a JSON content type whose body is [{question: q}] for a [q] that
    is non-empty and already trimmed: the page never sends a blank
    question. *)
Theorem in_flight_well_formed p req :
  reachable window engine p ->
  In req (in_flight p) ->
  ask_url req = str "/api/ask"
  /\ ask_method req = str "POST"
  /\ ask_headers req = [(str "Content-Type", str "application/json")]
  /\ exists q,
       q <> [] /\ trim q = q
       /\ ask_body req = JSON_stringify (VObject [(str "question", VString q)]).
Proof.
  intros Hp Hin. pose proof (in_flight_invariant p Hp) as H.
  rewrite Forall_forall in H. exact (H req Hin).
Qed.

(** A page that is mounted is reachable, and React renders on it the
    elements of [render_results]. *)
Lemma mounted_page_reachable p :
  mounted_page window engine p -> reachable window engine p.
Proof.
  induction 1 as [|p ev p' l Hp IH Hstep Hr]; [apply reachable_initial|].
  exact (reachable_step window engine p ev p' IH Hstep).
Qed.

Lemma mounted_page_renders p :
  mounted_page window engine p ->
  render_page (state p) = Some (render_results (state p)).
Proof.
  intros H.
  assert (Hl : exists l, render_page (state p) = Some l).
  { destruct H as [|p ev p' l Hp Hstep Hr]; eexists; [reflexivity | exact Hr]. }
  destruct Hl as [l Hl]. unfold render_page in *.
  destruct (_ || _); [discriminate | reflexivity].
Qed.

Lemma run_mounted_page evs : forall p p',
  mounted_page window engine p ->
  run_mounted window engine evs p = Some p' ->
  mounted_page window engine p'.
Proof.
  induction evs as [|ev evs IH]; intros p p' Hp Hrun; cbn [run_mounted] in Hrun.
  - injection Hrun as <-. exact Hp.
  - destruct (step window engine p ev) as [p1|] eqn:E; [|discriminate].
    destruct (render_page (state p1)) as [l|] eqn:R; [|discriminate].
    apply (IH p1); [|exact Hrun].
    exact (mounted_step window engine p ev p1 l Hp E R).
Qed.

(** C1, as the code has it. At every state of a page that is still
    mounted (React unmounts it when a render fails, which happens once
    [answer] is set and [answer] or [route] holds an object), React renders
    the elements of lines 146-156, and each of the three result displays is
    among them exactly when its own field is set: the loading indicator
    when [loading], the error message when [error] is non-empty, the
    answer box when [answer] is non-empty; they are not exclusive. The one
    exclusion the transitions keep: the loading indicator and an error
    message are on the page together only when the error is a recognizer's
    "Voice error: ..." message. *)
Theorem results_displayed p :
  mounted_page window engine p ->
  exists shown,
    render_page (state p) = Some shown
    /\ existsb shows_loading shown = loading (state p)
    /\ existsb shows_error shown = truthy (error (state p))
    /\ existsb shows_answer shown = truthy (answer (state p))
    /\ (existsb shows_loading shown = true ->
        existsb shows_error shown = true ->
        exists code, error (state p) = VString (str "Voice error: " ++ code)).
Proof.
  intros Hm. exists (render_results (state p)).
  split; [exact (mounted_page_renders p Hm)|].
  pose proof (mounted_page_reachable p Hm) as Hp.
  destruct (render_results_spec (state p)) as (Hl & He & Ha).
  repeat split; try assumption.
  rewrite Hl, He. intros L E.
  destruct (loading_error_invariant window engine p Hp L) as [H|H]; [|exact H].
  rewrite H in E. discriminate.
Qed.

(** On a page that never had two requests in flight, [loading] is set
    exactly while one is. *)
Lemma one_at_a_time_invariant p :
  one_at_a_time window engine p ->
  reachable window engine p
  /\ List.length (in_flight p) <= 1
  /\ (in_flight p <> [] -> loading (state p) = true).
Proof.
  induction 1 as [|p ev p' Hp (IHr & IHn & IHl) Hstep Hlen].
  - split; [apply reachable_initial|]. split; [cbn; lia|]. cbn. congruence.
  - split; [exact (reachable_step window engine p ev p' IHr Hstep)|].
    split; [exact Hlen|].
    assert (Hask : forall text q,
               in_flight q = in_flight p -> loading (state q) = loading (state p) ->
               in_flight (askQuestion text q) <> [] ->
               loading (state (askQuestion text q)) = true).
    { intros text q Ef El. unfold askQuestion.
      destruct (is_empty (trim text)); [|reflexivity].
      rewrite Ef, El. exact IHl. }
    destruct ev as [|text| | | | |rev|i o];
      [| | | | | | |
       assert (Hi : nth_error (in_flight p) i <> None)
         by (cbn in Hstep; destruct (nth_error (in_flight p) i);
             [discriminate | discriminate Hstep]);
       apply step_Settle in Hstep; subst p'];
      try cbn in Hstep.
    + injection Hstep as <-. exact IHl.
    + injection Hstep as <-. exact IHl.
    + destruct (start_clickable (state p)); [|discriminate].
      injection Hstep as <-. rewrite onStartListening_loading.
      unfold onStartListening. destruct (createSpeechRecognition window); exact IHl.
    + destruct (stop_clickable (state p)); [|discriminate].
      injection Hstep as <-. rewrite onStopListening_state.
      unfold onStopListening. destruct (recognitionRef (state p)); exact IHl.
    + destruct (ask_clickable (state p)); [|discriminate].
      injection Hstep as <-. apply Hask; reflexivity.
    + destruct (replay_clickable (state p)); [|discriminate].
      injection Hstep as <-. rewrite speak_state.
      destruct (speak_rest (answer (state p)) p) as [-> _]. exact IHl.
    + destruct (has_started p); [|discriminate].
      injection Hstep as <-. destruct rev as [|code| |t]; try exact IHl.
      cbn [recognition_handler]. apply Hask; reflexivity.
    + pose proof (askQuestion_settled_frame o
                    (with_in_flight (remove_nth i (in_flight p)) p)) as H.
      cbv zeta in H. destruct H as (Hf & _).
      intros Hne. exfalso. apply Hne. rewrite Hf. cbn [in_flight with_in_flight].
      destruct (in_flight p) as [|r1 [|r2 rest]]; cbn in IHn.
      * destruct i; reflexivity.
      * destruct i as [|i]; [reflexivity|]. destruct i; cbn in Hi; congruence.
      * lia.
Qed.

(** C3, as the code has it. A call of [askQuestion] with a non-blank text
    sets [loading] and puts one request in flight; no event other than the
    settling of a request clears [loading]; and when a request settles,
    whatever the outcome of the fetch (network rejection, JSON-parse
    rejection, non-ok or ok response), [loading] is false. A call with a
    blank text returns at once and changes nothing, [loading] included.
    [loading] is set only while a request is in flight, and exactly while
    one is on a page that never has two in flight. *)
Theorem askQuestion_loading_interval text p :
  (trim text = [] -> askQuestion text p = p)
  /\ (trim text <> [] ->
      loading (state (askQuestion text p)) = true
      /\ List.length (in_flight (askQuestion text p)) = S (List.length (in_flight p)))
  /\ (forall q ev q',
        step window engine q ev = Some q' ->
        (forall i o, ev <> Settle i o) ->
        loading (state q) = true -> loading (state q') = true)
  /\ (forall q i o q',
        step window engine q (Settle i o) = Some q' ->
        loading (state q') = false)
  /\ (forall q, reachable window engine q ->
        loading (state q) = true -> in_flight q <> [])
  /\ (forall q, one_at_a_time window engine q ->
        (loading (state q) = true <-> in_flight q <> [])).
Proof.
  split; [apply askQuestion_blank|].
  split.
  { intros Ht. rewrite askQuestion_loading, askQuestion_in_flight.
    destruct (trim text); [congruence|]. split; reflexivity. }
  split.
  { intros q ev q' Hstep Hev L.
    destruct ev as [|t| | | | |rev|i o]; cbn in Hstep.
    - injection Hstep as <-. exact L.
    - injection Hstep as <-. exact L.
    - destruct (start_clickable (state q)); [|discriminate].
      injection Hstep as <-. rewrite onStartListening_loading. exact L.
    - destruct (stop_clickable (state q)); [|discriminate].
      injection Hstep as <-. rewrite onStopListening_state. exact L.
    - destruct (ask_clickable (state q)); [|discriminate].
      injection Hstep as <-. rewrite askQuestion_loading.
      destruct (is_empty _); [exact L | reflexivity].
    - destruct (replay_clickable (state q)); [|discriminate].
      injection Hstep as <-. rewrite speak_state. exact L.
    - destruct (has_started q); [|discriminate].
      injection Hstep as <-. destruct rev as [|code| |t]; cbn; try exact L.
      rewrite askQuestion_loading.
      destruct (is_empty _); [exact L | reflexivity].
    - destruct (Hev i o). reflexivity. }
  split.
  { intros q i o q' Hstep. apply step_Settle in Hstep. subst q'.
    apply askQuestion_settled_loading. }
  split; [exact (loading_in_flight window engine)|].
  intros q Hq. destruct (one_at_a_time_invariant q Hq) as (Hr & _ & Hl).
  split; [exact (loading_in_flight window engine q Hr) | exact Hl].
Qed.

(** C7, as the code has it. When a request settles on a response with
    status 200 that carries [answer] and [route], the state after
    resolution has [loading = false] and [answer] and [route] as in the
    response; [error] is what it was when the response arrived, so it is
    empty when the response is the next event after the submission (which
    cleared it) and otherwise holds what a recognizer error or another
    request's failure has put there since. The answer is spoken (any
    current utterance cancelled first) when it is non-empty and the browser
    has speech synthesis, and no call to the synthesizer is made
    otherwise. *)
Theorem askQuestion_success q i data a r p' :
  opt_prop data (str "answer") = VString a ->
  opt_prop data (str "route") = VString r ->
  step window engine q (Settle i (Responded 200 data)) = Some p' ->
  loading (state p') = false
  /\ answer (state p') = VString a
  /\ route (state p') = VString r
  /\ error (state p') = error (state q)
  /\ (forall text p,
        q = askQuestion text p -> trim text <> [] ->
        error (state p') = VString (str ""))
  /\ synth p' = synth q ++
       (if negb (is_empty a) && synthesis_available window
        then [Cancel; Speak a (str "en-US") 1 1] else []).
Proof.
  intros Ha Hr Hstep. apply step_Settle in Hstep.
  assert (Hmain : loading (state p') = false
                  /\ answer (state p') = VString a
                  /\ route (state p') = VString r
                  /\ error (state p') = error (state q)
                  /\ synth p' = synth q ++
                       (if negb (is_empty a) && synthesis_available window
                        then [Cancel; Speak a (str "en-US") 1 1] else [])).
  { destruct q as [s fl sy rc]. subst p'.
    destruct data; try discriminate Ha.
    unfold askQuestion_settled, askQuestion_try.
    cbn [Ui.ok Z.leb Z.compare Pos.compare Pos.compare_cont andb negb prop].
    cbn in Ha, Hr |- *. rewrite Ha, Hr.
    destruct a as [|c a], r as [|c' r]; cbn;
      unfold speak; destruct (synthesis_available window); cbn;
      rewrite ?app_nil_r, <- ?app_assoc; cbn; auto 10. }
  destruct Hmain as (H1 & H2 & H3 & H4 & H5).
  repeat (split; [assumption|]). split; [|exact H5].
  intros text p -> Ht. rewrite H4, askQuestion_error.
  destruct (trim text); [congruence | reflexivity].
Qed.

End UiMore.

(* ===================================================================== *)
(** ** The page and the route together                                    *)
(* ===================================================================== *)

Section EndToEnd.
Variable window : option Window.
Variable engine : Engine.
Variable env : ProcessEnv.
Variable backend : Backend.

(** The route on the body the page sends for [text]. *)
Lemma POST_of_page_request q log :
  trim q = q ->
  exec (POST_try env backend
          {| request_json := Some (VObject [(str "question", VString q)]) |}) log
  = exec (POST_validated env backend (VString q)) log.
Proof.
  intros Hq.
  rewrite (exec_POST_try env backend (VObject [(str "question", VString q)]) q log
             eq_refl).
  rewrite Hq. reflexivity.
Qed.

(** The page after a 2xx response with a string [answer] and [route]. *)
Lemma settled_with_answer st data a rt q :
  Ui.ok st = true ->
  opt_prop data (str "answer") = VString a ->
  opt_prop data (str "route") = VString rt ->
  answer (state (askQuestion_settled window engine (Responded st data) q)) = VString a
  /\ route (state (askQuestion_settled window engine (Responded st data) q)) = VString rt
  /\ loading (state (askQuestion_settled window engine (Responded st data) q)) = false
  /\ error (state (askQuestion_settled window engine (Responded st data) q))
     = error (state q).
Proof.
  intros Ho Ha Hr. destruct data; try discriminate Ha.
  unfold askQuestion_settled, askQuestion_try. rewrite Ho. cbn [negb prop].
  rewrite Ha, Hr.
  assert (Ea : or (VString a) (VString (str "")) = VString a) by (destruct a; reflexivity).
  assert (Er : or (VString rt) (VString (str "")) = VString rt) by (destruct rt; reflexivity).
  rewrite Ea, Er.
  destruct (truthy (VString a)); [|cbn; auto].
  set (p2 := with_state _ (with_state _ q)).
  pose proof (speak_state window engine (VString a) p2) as Hs.
  assert (Hn : snd (speak window engine (VString a) p2) = None).
  { unfold speak. destruct (negb _); reflexivity. }
  destruct (speak window engine (VString a) p2) as [p3 t]. cbn in Hs, Hn. subst t.
  cbn. rewrite Hs. cbn. auto.
Qed.

(** The page after a response that is not 2xx carrying a string [detail]. *)
Lemma settled_with_detail st data X q :
  Ui.ok st = false ->
  opt_prop data (str "detail") = VString X ->
  X <> [] ->
  error (state (askQuestion_settled window engine (Responded st data) q)) = VString X
  /\ loading (state (askQuestion_settled window engine (Responded st data) q)) = false
  /\ answer (state (askQuestion_settled window engine (Responded st data) q))
     = answer (state q).
Proof.
  intros Ho Hd HX.
  unfold askQuestion_settled, askQuestion_try. rewrite Ho, Hd. cbn [negb].
  unfold or. rewrite (nonempty_truthy _ HX). cbn.
  destruct X; [congruence|]. auto.
Qed.

(** X24. A request the page has in flight always passes the route's
    validation: given its body, the route calls the backend once with the
    same question, unchanged. *)
Theorem page_request_is_forwarded p req :
  reachable window engine p ->
  In req (in_flight p) ->
  exists q,
    q <> []
    /\ ask_body req = JSON_stringify (VObject [(str "question", VString q)])
    /\ snd (Proxy.run (POST env backend
                         {| request_json :=
                              Some (VObject [(str "question", VString q)]) |}))
       = [query_request (backendConfig env) (VString q)].
Proof.
  intros Hp Hin. pose proof (in_flight_invariant window engine p Hp) as H.
  rewrite Forall_forall in H. destruct (H req Hin) as (_ & _ & _ & q & Hq & Ht & Hb).
  exists q. split; [exact Hq|]. split; [exact Hb|].
  rewrite POST_log. unfold Proxy.run. rewrite (POST_of_page_request q [] Ht).
  exact (exec_POST_validated_log env backend q [] Hq).
Qed.

(** A string property of an object is still there, unchanged, after
    [JSON.stringify] and [JSON.parse]. *)
Lemma string_prop_round_trip k v a :
  opt_prop v k = VString a ->
  exists j, JSON_stringify v = Some j /\ opt_prop (JSON_parse j) k = VString a.
Proof.
  destruct v as [| |b|x|s|items|props]; try discriminate. cbn [opt_prop].
  intros H.
  exists (JObject (flat_map (fun '(k, item) =>
                               match JSON_stringify item with
                               | Some j => [(k, j)] | None => [] end) props)).
  split; [reflexivity|].
  change (lookup k (map (fun '(k, item) => (k, JSON_parse item))
                      (flat_map (fun '(k, item) =>
                                   match JSON_stringify item with
                                   | Some j => [(k, j)] | None => [] end) props))
          = VString a).
  induction props as [|[k' item] props IH]; [discriminate H|].
  cbn [lookup] in H. cbn [flat_map].
  destruct (jsstr_eqb k k') eqn:E.
  - subst item. change (JSON_stringify (VString a)) with (Some (JString a)).
    cbn [app map JSON_parse lookup]. rewrite E. reflexivity.
  - destruct (JSON_stringify item) as [ji|]; cbn [app map lookup].
    + rewrite E. exact (IH H).
    + exact (IH H).
Qed.

(** X25. From question to answer: when the backend answers the forwarded
    question with a 2xx status and a payload with string [answer] and
    [route], the route answers 200 with the payload's JSON text, and the
    page, whenever it settles a request on that response, has this answer
    and route and [loading] off, and leaves [error] as it was at that
    moment: empty when the response is the next event after the
    submission, which cleared it. *)
Theorem question_to_answer text resp payload a rt :
  trim text <> [] ->
  backend (query_request (backendConfig env) (VString (trim text))) = Some resp ->
  Proxy.ok resp = true ->
  backend_json resp = Some payload ->
  opt_prop payload (str "answer") = VString a ->
  opt_prop payload (str "route") = VString rt ->
  exists j,
    fst (Proxy.run (POST env backend
                      {| request_json :=
                           Some (VObject [(str "question", VString (trim text))]) |}))
    = inr {| status := 200; json := Some j |}
    /\ JSON_stringify payload = Some j
    /\ (forall q i p',
          step window engine q (Settle i (Responded 200 (JSON_parse j))) = Some p' ->
          answer (state p') = VString a
          /\ route (state p') = VString rt
          /\ loading (state p') = false
          /\ error (state p') = error (state q))
    /\ (forall p i p',
          step window engine (askQuestion text p)
            (Settle i (Responded 200 (JSON_parse j))) = Some p' ->
          error (state p') = VString (str "")).
Proof.
  intros Ht Hb Hok Hp Ha Hr.
  destruct (string_prop_round_trip _ _ _ Ha) as (j & Hj & Ha').
  destruct (string_prop_round_trip _ _ _ Hr) as (j' & Hj' & Hr').
  assert (j' = j) by congruence. subst j'.
  assert (Hui : forall q i p',
             step window engine q (Settle i (Responded 200 (JSON_parse j))) = Some p' ->
             answer (state p') = VString a
             /\ route (state p') = VString rt
             /\ loading (state p') = false
             /\ error (state p') = error (state q)).
  { intros q i p' Hstep. apply step_Settle in Hstep. subst p'.
    exact (settled_with_answer 200 (JSON_parse j) a rt
             (with_in_flight (remove_nth i (in_flight q)) q) eq_refl Ha' Hr'). }
  exists j. split; [|split; [exact Hj|split; [exact Hui|]]].
  - unfold Proxy.run, POST.
    rewrite exec_catch, (POST_of_page_request _ [] (trim_idempotent text)).
    unfold POST_validated. rewrite (nonempty_truthy _ Ht). cbn [negb].
    rewrite exec_bind, exec_await_fetch, Hb, exec_bind, exec_catch.
    unfold await_response_json. rewrite Hp. cbn [await].
    rewrite exec_ret, Hok. cbn [negb].
    rewrite (exec_NextResponse_json_ok payload 200 _ j); [reflexivity|lia|reflexivity|exact Hj].
  - intros p i p' Hstep. destruct (Hui _ _ _ Hstep) as (_ & _ & _ & ->).
    rewrite askQuestion_error. destruct (trim text); [congruence | reflexivity].
Qed.

(** X26. From backend error to error message: when the backend answers
    with a status 300..599 other than 304 and a payload with a non-empty
    string [detail], the route relays status and detail, and the page,
    settling on that response, shows exactly that detail as its error and
    keeps the answer it had. *)
Theorem backend_detail_reaches_page text p resp payload X :
  trim text <> [] ->
  backend (query_request (backendConfig env) (VString (trim text))) = Some resp ->
  Proxy.ok resp = false ->
  (200 <= backend_status resp <= 599)%Z ->
  null_body_status (backend_status resp) = false ->
  backend_json resp = Some payload ->
  opt_prop payload (str "detail") = VString X ->
  X <> [] ->
  exists r,
    fst (Proxy.run (POST env backend
                      {| request_json :=
                           Some (VObject [(str "question", VString (trim text))]) |}))
    = inr r
    /\ status r = backend_status resp
    /\ json r = JSON_stringify (VObject [(str "detail", VString X)])
    /\ forall i p',
         step window engine (askQuestion text p)
           (Settle i (Responded (status r) (VObject [(str "detail", VString X)])))
         = Some p' ->
         error (state p') = VString X
         /\ loading (state p') = false
         /\ answer (state p') = answer (state p).
Proof.
  intros Ht Hb Hok Hr Hn Hp Hd HX.
  exists {| status := backend_status resp;
            json := JSON_stringify (VObject [(str "detail", VString X)]) |}.
  split.
  { unfold Proxy.run, POST.
    rewrite exec_catch, (POST_of_page_request _ [] (trim_idempotent text)).
    unfold POST_validated. rewrite (nonempty_truthy _ Ht). cbn [negb].
    rewrite exec_bind, exec_await_fetch, Hb, exec_bind, exec_catch.
    unfold await_response_json. rewrite Hp. cbn [await].
    rewrite exec_ret, Hok. cbn [negb]. rewrite Hd.
    unfold or. rewrite (nonempty_truthy _ HX).
    rewrite (exec_NextResponse_json_ok (VObject [(str "detail", VString X)]) _ _
               (JObject [(str "detail", JString X)]) Hr Hn eq_refl).
    reflexivity. }
  split; [reflexivity|]. split; [reflexivity|].
  intros i p' Hstep. apply step_Settle in Hstep. subst p'. cbn [status].
  assert (Hui : Ui.ok (backend_status resp) = false) by exact Hok.
  destruct (settled_with_detail (backend_status resp)
              (VObject [(str "detail", VString X)]) X
              (with_in_flight (remove_nth i (in_flight (askQuestion text p)))
                 (askQuestion text p)) Hui eq_refl HX)
    as (-> & -> & ->).
  cbn [state with_in_flight]. rewrite askQuestion_answer. auto.
Qed.

(** X27. When the backend cannot be reached, the route answers 500 and
    the page shows "Failed to process request." and keeps its answer. *)
Theorem backend_down_reaches_page text p :
  trim text <> [] ->
  backend (query_request (backendConfig env) (VString (trim text))) = None ->
  fst (Proxy.run (POST env backend
                    {| request_json :=
                         Some (VObject [(str "question", VString (trim text))]) |}))
  = inr {| status := 500;
           json := JSON_stringify (detail "Failed to process request.") |}
  /\ forall i p',
       step window engine (askQuestion text p)
         (Settle i (Responded 500 (detail "Failed to process request."))) = Some p' ->
       error (state p') = VString (str "Failed to process request.")
       /\ loading (state p') = false
       /\ answer (state p') = answer (state p).
Proof.
  intros Ht Hb. split.
  { unfold Proxy.run, POST.
    rewrite exec_catch, (POST_of_page_request _ [] (trim_idempotent text)).
    unfold POST_validated. rewrite (nonempty_truthy _ Ht). cbn [negb].
    rewrite exec_bind, exec_await_fetch, Hb. reflexivity. }
  intros i p' Hstep. apply step_Settle in Hstep. subst p'.
  destruct (settled_with_detail 500 (detail "Failed to process request.")
              (str "Failed to process request.")
              (with_in_flight (remove_nth i (in_flight (askQuestion text p)))
                 (askQuestion text p)) eq_refl eq_refl)
    as (-> & -> & ->); [discriminate|].
  cbn [state with_in_flight]. rewrite askQuestion_answer. auto.
Qed.

(** X28. When the backend answers 2xx with a body that is not JSON, the
    route answers 200 with [{detail: "Invalid backend response."}]; the
    page takes that as a success without an answer: settling on it right
    after the submission, it shows no loading indicator, no error and no
    answer box, and an answer shown before is gone. *)
Theorem invalid_2xx_shows_nothing text p resp :
  trim text <> [] ->
  backend (query_request (backendConfig env) (VString (trim text))) = Some resp ->
  Proxy.ok resp = true ->
  backend_json resp = None ->
  fst (Proxy.run (POST env backend
                    {| request_json :=
                         Some (VObject [(str "question", VString (trim text))]) |}))
  = inr {| status := 200;
           json := JSON_stringify (detail "Invalid backend response.") |}
  /\ forall i p',
       step window engine (askQuestion text p)
         (Settle i (Responded 200 (detail "Invalid backend response."))) = Some p' ->
       render_results (state p') = [].
Proof.
  intros Ht Hb Hok Hp. split.
  { unfold Proxy.run, POST.
    rewrite exec_catch, (POST_of_page_request _ [] (trim_idempotent text)).
    unfold POST_validated. rewrite (nonempty_truthy _ Ht). cbn [negb].
    rewrite exec_bind, exec_await_fetch, Hb, exec_bind, exec_catch.
    unfold await_response_json. rewrite Hp. cbn [await].
    rewrite Hok. reflexivity. }
  intros i p' Hstep. apply step_Settle in Hstep. subst p'.
  unfold render_results, askQuestion_settled. cbn.
  rewrite askQuestion_error. destruct (trim text); [congruence|]. reflexivity.
Qed.

End EndToEnd.

(* ===================================================================== *)
(** ** The further properties at concrete inputs                          *)
(* ===================================================================== *)

Lemma POST_non_string_question_witness :
  truthy (opt_prop body_number_question (str "question")) = true
  /\ Proxy.run (POST env_keyed backend_answers
                  {| request_json := Some body_number_question |})
     = (inr {| status := 500;
               json := JSON_stringify (detail "Failed to process request.") |},
        []).
Proof.
  split; [reflexivity|].
  apply (POST_non_string_question env_keyed backend_answers body_number_question).
  - reflexivity.
  - intros s H. vm_compute in H. discriminate H.
Defined.

Lemma POST_missing_question_witness :
  truthy (opt_prop body_no_question (str "question")) = false
  /\ Proxy.run (POST env_keyed backend_answers {| request_json := Some body_no_question |})
     = (inr {| status := 400;
               json := JSON_stringify (detail "Question is required.") |},
        []).
Proof.
  split; [reflexivity|].
  apply (POST_missing_question env_keyed backend_answers body_no_question).
  reflexivity.
Defined.

Lemma POST_backend_unreachable_witness :
  trim (str " hi ") <> []
  /\ Proxy.run (POST env_unset backend_down {| request_json := Some body_hi_extra |})
     = (inr {| status := 500;
               json := JSON_stringify (detail "Failed to process request.") |},
        [query_request (backendConfig env_unset) (VString (trim (str " hi ")))]).
Proof.
  split; [cbv; discriminate|].
  apply (POST_backend_unreachable env_unset backend_down body_hi_extra (str " hi ")).
  - reflexivity.
  - cbv; discriminate.
  - reflexivity.
Defined.

Lemma POST_relays_backend_error_witness :
  exists j,
    fst (Proxy.run (POST env_unset backend_rate_limited {| request_json := Some body_hi |}))
    = inr {| status := 429; json := Some (JObject [(str "detail", j)]) |}
    /\ j = JString (str "Rate limited.").
Proof.
  assert (Hr : (200 <= 429 <= 599)%Z) by lia.
  assert (Ht : trim (str "hi") <> []) by (cbv; discriminate).
  assert (Hx : str "Rate limited." <> []) by (cbv; discriminate).
  destruct (POST_relays_backend_error env_unset backend_rate_limited body_hi (str "hi")
              {| backend_status := 429; backend_json := Some payload_rate_limited |}
              payload_rate_limited eq_refl Ht eq_refl eq_refl Hr eq_refl eq_refl)
    as (j & Hpost & _ & Hstr & _).
  exists j. split; [exact Hpost|]. exact (Hstr (str "Rate limited.") eq_refl Hx).
Defined.


Lemma rejection_message_witness :
  error (state (page_after browser session_network_failure))
  = VString (str "Failed to fetch").
Proof.
  assert (Hs : step browser engine (page_after browser session_asked)
                 (Settle 0 (FetchRejected (str "Failed to fetch")))
               = Some (page_after browser session_network_failure))
    by (vm_compute; reflexivity).
  exact (rejection_message browser engine _ _ _ (str "Failed to fetch") _ Hs
           (or_introl eq_refl)).
Defined.

Lemma non_ok_without_detail_witness :
  truthy (opt_prop (VObject []) (str "detail")) = false
  /\ error (state (page_after browser session_bad_gateway))
     = VString (str "Request failed.").
Proof.
  assert (Hs : step browser engine (page_after browser session_asked)
                 (Settle 0 (Responded 502 (VObject [])))
               = Some (page_after browser session_bad_gateway))
    by (vm_compute; reflexivity).
  split; [reflexivity|].
  exact (proj1 (non_ok_without_detail browser engine _ _ _ _ _ Hs eq_refl eq_refl)).
Defined.

Lemma success_without_answer_witness :
  answer (state (page_after browser session_ask_again)) = VString (str "Room 12")
  /\ answer (state (page_after browser session_answer_then_invalid)) = VString (str "").
Proof.
  assert (Hs : step browser engine (page_after browser session_ask_again)
                 (Settle 0 (Responded 200 (detail "Invalid backend response.")))
               = Some (page_after browser session_answer_then_invalid))
    by (vm_compute; reflexivity).
  split; [reflexivity|].
  refine (proj1 (success_without_answer browser engine _ _ _ _ _ Hs eq_refl _ _ eq_refl));
    discriminate.
Defined.

Lemma askQuestion_submits_witness :
  trim (str " Where is the lab? ") <> []
  /\ in_flight (askQuestion (str " Where is the lab? ") initial_page)
     = in_flight initial_page ++
         [{| ask_url := str "/api/ask";
             ask_method := str "POST";
             ask_headers := [(str "Content-Type", str "application/json")];
             ask_body := JSON_stringify
                           (VObject [(str "question",
                                      VString (trim (str " Where is the lab? ")))]) |}].
Proof.
  assert (Ht : trim (str " Where is the lab? ") <> []) by (cbv; discriminate).
  split; [exact Ht|].
  exact (proj1 (askQuestion_submits (str " Where is the lab? ") initial_page Ht)).
Defined.

Lemma askQuestion_whitespace_witness :
  askQuestion [0x20; 0x09; 0x0A; 0xA0; 0x3000]%N (page_after browser session_answer)
  = page_after browser session_answer.
Proof.
  apply (askQuestion_whitespace [0x20; 0x09; 0x0A; 0xA0; 0x3000]%N). reflexivity.
Defined.

Lemma ClickAsk_submits_witness :
  step browser engine (page_after browser [Typed (str "Where is the lab?")]) ClickAsk
  = Some (page_after browser session_asked)
  /\ loading (state (page_after browser session_asked)) = true.
Proof.
  assert (Hs : step browser engine (page_after browser [Typed (str "Where is the lab?")])
                 ClickAsk
               = Some (page_after browser session_asked))
    by (vm_compute; reflexivity).
  split; [exact Hs|].
  exact (proj1 (proj2 (proj2 (ClickAsk_submits browser engine _ _ Hs)))).
Defined.

Lemma synth_cancelled_before_speak_witness :
  synth (page_after browser session_replay)
  = [Cancel; Speak (str "Room 12") (str "en-US") 1 1;
     Cancel; Speak (str "Room 12") (str "en-US") 1 1]
  /\ exists rounds,
       synth (page_after browser session_replay) = List.concat rounds
       /\ Forall (fun round =>
                    round = [Cancel]
                    \/ exists s, round = [Cancel; Speak s (str "en-US") 1 1])
                 rounds.
Proof.
  split; [reflexivity|].
  exact (synth_cancelled_before_speak browser engine _
           (page_after_reachable browser session_replay)).
Defined.

Lemma synth_silent_without_capability_witness :
  synthesis_available browser_mute = false
  /\ answer (state (page_after browser_mute session_replay)) = VString (str "Room 12")
  /\ synth (page_after browser_mute session_replay) = [].
Proof.
  split; [reflexivity|]. split; [reflexivity|].
  exact (synth_silent_without_capability browser_mute engine _ eq_refl
           (page_after_reachable browser_mute session_replay)).
Defined.

Lemma started_recognizers_configured_witness :
  In (Start {| lang := str "en-US"; interimResults := false; maxAlternatives := 1 |})
     (recognizer (page_after browser session_listening))
  /\ createSpeechRecognition browser <> None.
Proof.
  assert (Hin : In (Start {| lang := str "en-US"; interimResults := false;
                             maxAlternatives := 1 |})
                   (recognizer (page_after browser session_listening)))
    by (left; reflexivity).
  split; [exact Hin|].
  exact (proj2 (proj2 (proj2
           (started_recognizers_configured browser engine _ _
              (page_after_reachable browser session_listening) Hin)))).
Defined.

Lemma ClickStop_stops_witness :
  listening (state (page_after browser session_listening)) = true
  /\ step browser engine (page_after browser session_listening) ClickStop
     = Some (page_after browser session_stopped)
  /\ listening (state (page_after browser session_stopped)) = false.
Proof.
  assert (Hs : step browser engine (page_after browser session_listening) ClickStop
               = Some (page_after browser session_stopped))
    by (vm_compute; reflexivity).
  split; [reflexivity|]. split; [exact Hs|].
  exact (proj1 (ClickStop_stops browser engine _ _
                  (page_after_reachable browser session_listening) Hs)).
Defined.

Lemma start_label_matches_capability_witness :
  mounted (state (page_after browser_deaf session_start_unsupported)) = true
  /\ ((createSpeechRecognition browser_deaf = None
       /\ start_button_label (state (page_after browser_deaf session_start_unsupported))
          = str "Voice Not Supported")
      \/ ((exists r, createSpeechRecognition browser_deaf = Some r)
          /\ start_button_label (state (page_after browser_deaf session_start_unsupported))
             = str "Start Voice Question")).
Proof.
  split; [reflexivity|].
  exact (start_label_matches_capability browser_deaf engine _
           (page_after_reachable browser_deaf session_start_unsupported) eq_refl).
Defined.

Lemma voice_result_submits_witness :
  step browser engine (page_after browser session_listening)
    (Recognized (onresult (Some (str " where is the lab "))))
  = Some (page_after browser session_voice_question)
  /\ question (state (page_after browser session_voice_question))
     = or_str (Some (str " where is the lab ")) (str "").
Proof.
  assert (Hs : step browser engine (page_after browser session_listening)
                 (Recognized (onresult (Some (str " where is the lab "))))
               = Some (page_after browser session_voice_question))
    by (vm_compute; reflexivity).
  split; [exact Hs|].
  exact (proj1 (voice_result_submits browser engine _ _ _ Hs)).
Defined.

Lemma answer_changes_only_on_settle_witness :
  step browser engine (page_after browser session_answer) ClickAsk
  = Some (page_after browser session_ask_again)
  /\ answer (state (page_after browser session_ask_again))
     = answer (state (page_after browser session_answer)).
Proof.
  assert (Hs : step browser engine (page_after browser session_answer) ClickAsk
               = Some (page_after browser session_ask_again))
    by (vm_compute; reflexivity).
  split; [exact Hs|].
  refine (proj1 (answer_changes_only_on_settle browser engine _ _ _ Hs _)).
  intros i o. discriminate.
Defined.

Lemma in_flight_well_formed_witness :
  exists req,
    In req (in_flight (page_after browser session_voice_question))
    /\ ask_url req = str "/api/ask"
    /\ ask_body req
       = JSON_stringify (VObject [(str "question", VString (str "where is the lab"))]).
Proof.
  assert (Hin : In {| ask_url := str "/api/ask";
                      ask_method := str "POST";
                      ask_headers := [(str "Content-Type", str "application/json")];
                      ask_body := JSON_stringify
                                    (VObject [(str "question",
                                               VString (str "where is the lab"))]) |}
                   (in_flight (page_after browser session_voice_question)))
    by (left; vm_compute; reflexivity).
  eexists. split; [exact Hin|].
  split; [|reflexivity].
  exact (proj1 (in_flight_well_formed browser engine _ _
                  (page_after_reachable browser session_voice_question) Hin)).
Defined.

Lemma page_request_is_forwarded_witness :
  exists req q,
    In req (in_flight (page_after browser session_asked))
    /\ ask_body req = JSON_stringify (VObject [(str "question", VString q)])
    /\ snd (Proxy.run (POST env_keyed backend_answers
                         {| request_json :=
                              Some (VObject [(str "question", VString q)]) |}))
       = [query_request (backendConfig env_keyed) (VString q)].
Proof.
  assert (Hin : In {| ask_url := str "/api/ask";
                      ask_method := str "POST";
                      ask_headers := [(str "Content-Type", str "application/json")];
                      ask_body := JSON_stringify
                                    (VObject [(str "question",
                                               VString (str "Where is the lab?"))]) |}
                   (in_flight (page_after browser session_asked)))
    by (left; vm_compute; reflexivity).
  destruct (page_request_is_forwarded browser engine env_keyed backend_answers _ _
              (page_after_reachable browser session_asked) Hin)
    as (q & _ & Hb & Hlog).
  eexists. exists q. split; [exact Hin|]. split; [exact Hb | exact Hlog].
Defined.

Lemma question_to_answer_witness :
  trim (str "Where is the lab?") <> []
  /\ exists j,
       fst (Proxy.run (POST env_unset backend_answers
                         {| request_json :=
                              Some (VObject [(str "question",
                                              VString (trim (str "Where is the lab?")))]) |}))
       = inr {| status := 200; json := Some j |}
       /\ JSON_parse j = payload_answer
       /\ error (state (page_after browser session_answer)) = VString (str "").
Proof.
  assert (Ht : trim (str "Where is the lab?") <> []) by (cbv; discriminate).
  split; [exact Ht|].
  destruct (question_to_answer browser engine env_unset backend_answers
              (str "Where is the lab?")
              {| backend_status := 200; backend_json := Some payload_answer |}
              payload_answer (str "Room 12") (str "structured")
              Ht eq_refl eq_refl eq_refl eq_refl eq_refl)
    as (j & Hpost & Hj & _ & Himm).
  assert (Hparse : JSON_parse j = payload_answer).
  { vm_compute in Hj. injection Hj as <-. vm_compute. reflexivity. }
  exists j. split; [exact Hpost|]. split; [exact Hparse|].
  apply (Himm (with_state (setQuestion (str "Where is the lab?")) initial_page) 0%nat).
  rewrite Hparse. vm_compute. reflexivity.
Defined.

Lemma backend_detail_reaches_page_witness :
  trim (str "Where is the lab?") <> []
  /\ exists r,
       fst (Proxy.run (POST env_unset backend_rate_limited
                         {| request_json :=
                              Some (VObject [(str "question",
                                              VString (trim (str "Where is the lab?")))]) |}))
       = inr r
       /\ status r = 429%Z.
Proof.
  assert (Ht : trim (str "Where is the lab?") <> []) by (cbv; discriminate).
  assert (Hx : str "Rate limited." <> []) by (cbv; discriminate).
  assert (Hr : (200 <= 429 <= 599)%Z) by lia.
  split; [exact Ht|].
  destruct (backend_detail_reaches_page browser engine env_unset backend_rate_limited
              (str "Where is the lab?") initial_page
              {| backend_status := 429; backend_json := Some payload_rate_limited |}
              payload_rate_limited (str "Rate limited.")
              Ht eq_refl eq_refl Hr eq_refl eq_refl eq_refl Hx)
    as (r & Hpost & Hst & _).
  exists r. split; [exact Hpost | exact Hst].
Defined.

Lemma backend_down_reaches_page_witness :
  trim (str "Where is the lab?") <> []
  /\ fst (Proxy.run (POST env_unset backend_down
                       {| request_json :=
                            Some (VObject [(str "question",
                                            VString (trim (str "Where is the lab?")))]) |}))
     = inr {| status := 500;
              json := JSON_stringify (detail "Failed to process request.") |}.
Proof.
  assert (Ht : trim (str "Where is the lab?") <> []) by (cbv; discriminate).
  split; [exact Ht|].
  exact (proj1 (backend_down_reaches_page browser engine env_unset backend_down
                  (str "Where is the lab?") initial_page Ht eq_refl)).
Defined.

Lemma invalid_2xx_shows_nothing_witness :
  trim (str "Where is the lab?") <> []
  /\ fst (Proxy.run (POST env_unset backend_no_content
                       {| request_json :=
                            Some (VObject [(str "question",
                                            VString (trim (str "Where is the lab?")))]) |}))
     = inr {| status := 200;
              json := JSON_stringify (detail "Invalid backend response.") |}
  /\ render_results (state (page_after browser session_answer_then_invalid)) = [].
Proof.
  assert (Ht : trim (str "Where is the lab?") <> []) by (cbv; discriminate).
  assert (Hs : step browser engine
                 (askQuestion (str "Where is the lab?") (page_after browser session_answer))
                 (Settle 0 (Responded 200 (detail "Invalid backend response.")))
               = Some (page_after browser session_answer_then_invalid))
    by (vm_compute; reflexivity).
  destruct (invalid_2xx_shows_nothing browser engine env_unset backend_no_content
              (str "Where is the lab?") (page_after browser session_answer)
              {| backend_status := 204; backend_json := None |}
              Ht eq_refl eq_refl eq_refl) as [Hpost Hui].
  split; [exact Ht|]. split; [exact Hpost|]. exact (Hui _ _ Hs).
Defined.

Lemma results_displayed_witness :
  mounted_page browser engine (page_after browser session_voice_error_while_loading)
  /\ render_page (state (page_after browser session_voice_error_while_loading))
     = Some [LoadingIndicator; ErrorMessage (VString (str "Voice error: no-speech"))]
  /\ exists code,
       error (state (page_after browser session_voice_error_while_loading))
       = VString (str "Voice error: " ++ code).
Proof.
  assert (Hm : mounted_page browser engine
                 (page_after browser session_voice_error_while_loading)).
  { apply (run_mounted_page browser engine session_voice_error_while_loading initial_page).
    - apply mounted_initial.
    - vm_compute. reflexivity. }
  assert (Hr : render_page (state (page_after browser session_voice_error_while_loading))
               = Some [LoadingIndicator;
                       ErrorMessage (VString (str "Voice error: no-speech"))])
    by (vm_compute; reflexivity).
  split; [exact Hm|]. split; [exact Hr|].
  destruct (results_displayed browser engine _ Hm) as (shown & Hs & _ & _ & _ & H).
  rewrite Hr in Hs. injection Hs as <-. apply H; reflexivity.
Defined.

(** C3 as stated fails: when a voice result is submitted while the typed
    question is in flight, the first request to settle clears [loading]
    although the other is still in flight; and a call with a blank text on
    a page that is loading ends with [loading] still true. *)
Lemma loading_not_exactly_the_interval :
  reachable browser engine (page_after browser session_overlap)
  /\ List.length (in_flight (page_after browser session_overlap)) = 1
  /\ loading (state (page_after browser session_overlap)) = false
  /\ loading (state (page_after browser session_asked)) = true
  /\ loading (state (askQuestion (str "   ") (page_after browser session_asked))) = true.
Proof.
  split; [apply page_after_reachable|]. repeat split; reflexivity.
Qed.

Lemma askQuestion_loading_interval_witness :
  trim (str "Where is the lab?") <> []
  /\ loading (state (askQuestion (str "Where is the lab?") initial_page)) = true
  /\ loading (state (page_after browser session_answer)) = false
  /\ one_at_a_time browser engine (page_after browser session_asked)
  /\ (loading (state (page_after browser session_asked)) = true
      <-> in_flight (page_after browser session_asked) <> []).
Proof.
  destruct (askQuestion_loading_interval browser engine
              (str "Where is the lab?") initial_page)
    as (_ & Hstart & _ & Hend & _ & Hone).
  assert (Ho : one_at_a_time browser engine (page_after browser session_asked)).
  { apply (one_step browser engine
             (page_after browser [Typed (str "Where is the lab?")]) ClickAsk).
    - apply (one_step browser engine initial_page (Typed (str "Where is the lab?"))).
      + apply one_initial.
      + vm_compute. reflexivity.
      + vm_compute. lia.
    - vm_compute. reflexivity.
    - vm_compute. lia. }
  split; [cbv; discriminate|]. split.
  { apply Hstart. cbv; discriminate. }
  split.
  { apply (Hend (askQuestion (str "Where is the lab?")
                   (with_state (setQuestion (str "Where is the lab?")) initial_page))
                0%nat (Responded 200 payload_answer)).
    vm_compute. reflexivity. }
  split; [exact Ho | exact (Hone _ Ho)].
Defined.

Lemma askQuestion_success_witness :
  step browser engine (page_after browser session_voice_error_while_loading)
    (Settle 0 (Responded 200 payload_answer))
  = Some (page_after browser session_voice_error_then_answer)
  /\ loading (state (page_after browser session_voice_error_then_answer)) = false
  /\ answer (state (page_after browser session_voice_error_then_answer))
     = VString (str "Room 12")
  /\ route (state (page_after browser session_voice_error_then_answer))
     = VString (str "structured")
  /\ error (state (page_after browser session_voice_error_then_answer))
     = error (state (page_after browser session_voice_error_while_loading))
  /\ error (state (page_after browser session_voice_error_then_answer))
     = VString (str "Voice error: no-speech").
Proof.
  assert (Hs : step browser engine (page_after browser session_voice_error_while_loading)
                 (Settle 0 (Responded 200 payload_answer))
               = Some (page_after browser session_voice_error_then_answer))
    by (vm_compute; reflexivity).
  destruct (askQuestion_success browser engine _ _ payload_answer
              (str "Room 12") (str "structured") _ eq_refl eq_refl Hs)
    as (H1 & H2 & H3 & H4 & _ & _).
  split; [exact Hs|]. split; [exact H1|]. split; [exact H2|]. split; [exact H3|].
  split; [exact H4|]. vm_compute. reflexivity.
Defined.
